(** * PredictiveServiceClient (dato/deploy/_client.py)

    A shallow embedding of the Python 2 client of the Dato Predictive
    Service and the properties of its external contract: construction from
    arguments or from a configuration file, the initial ping that caches a
    schema version, [set_query_timeout], [query] and [feedback].

    Python values are an inductive type, exceptions are values, and a method is
    a function in a state-and-exception monad whose state holds the client
    object and the list of HTTP requests issued so far.  What the interpreter's
    libraries do (json, requests, ConfigParser, os.path) is an interface,
    [Env]; the theorems hold for every implementation of it.

    Left out: the calls to [logging], which touch nothing the methods read, and
    the creation of the requests session, which [_ping] does once during
    construction and which is taken to succeed. *)

From Stdlib Require Import ZArith String Ascii List Bool Lia Floats.
From Stdlib Require Import DecimalString DecimalZ DecimalPos.
From stdpp Require Import base option list gmap strings.

Local Open Scope string_scope.
Local Open Scope Z_scope.

Set Warnings "-register-all".

(** ** Python values *)

(** The values that reach the client: what [json.loads] builds, what a caller
    passes as arguments, and [PyObj] for an instance of any other class, one
    that is no subclass of [int] or [basestring] and keeps the default
    comparison and truth value (an instance of a subclass of [dict], such as
    [collections.OrderedDict], is such an object: its type is not [dict]).
    [PyStr] is a [str], a string of bytes, and [PyUnicode] a [unicode], a
    string of code points; both are instances of [basestring].  A dict has
    string keys, as keyword arguments and JSON objects do. *)
Inductive pyval : Type :=
| PyNone
| PyBool (b : bool)
| PyInt (n : Z)
| PyLong (n : Z)
| PyFloat (f : float)
| PyStr (s : string)
| PyUnicode (u : list N)
| PyList (l : list pyval)
| PyDict (d : gmap string pyval)
| PyObj (cls : string).

(** [isinstance(v, int)]: [bool] is a subclass of [int], [long] is not. *)
Definition isinstance_int (v : pyval) : bool :=
  match v with
  | PyInt _ | PyBool _ => true
  | _ => false
  end.

(** [isinstance(v, basestring)]. *)
Definition isinstance_basestring (v : pyval) : bool :=
  match v with
  | PyStr _ | PyUnicode _ => true
  | _ => false
  end.

(** [type(v) == dict]. *)
Definition type_is_dict (v : pyval) : bool :=
  match v with
  | PyDict _ => true
  | _ => false
  end.

(** The integer literal [k] as a float (exact for the literals of the client). *)
Definition float_of_Z (k : Z) : float :=
  if k <? 0 then PrimFloat.opp (PrimFloat.of_uint63 (Uint63.of_Z (- k)))
  else PrimFloat.of_uint63 (Uint63.of_Z k).

(** [v < k] for an int literal [k], with Python 2's ordering of mixed types:
    [None] is below everything, numbers compare by value, and every other
    object is above every number. *)
Definition py_lt_int (v : pyval) (k : Z) : bool :=
  match v with
  | PyNone => true
  | PyBool b => Z.b2z b <? k
  | PyInt n | PyLong n => n <? k
  | PyFloat f => PrimFloat.ltb f (float_of_Z k)
  | PyStr _ | PyUnicode _ | PyList _ | PyDict _ | PyObj _ => false
  end.

(** [v <= k] for an int literal [k]. *)
Definition py_le_int (v : pyval) (k : Z) : bool :=
  match v with
  | PyNone => true
  | PyBool b => Z.b2z b <=? k
  | PyInt n | PyLong n => n <=? k
  | PyFloat f => PrimFloat.leb f (float_of_Z k)
  | PyStr _ | PyUnicode _ | PyList _ | PyDict _ | PyObj _ => false
  end.

(** The truth value of [v], as [if v] and [not v] take it. *)
Definition truthy (v : pyval) : bool :=
  match v with
  | PyNone => false
  | PyBool b => b
  | PyInt n | PyLong n => negb (n =? 0)
  | PyFloat f => negb (PrimFloat.eqb f PrimFloat.zero)
  | PyStr s => negb (String.eqb s "")
  | PyUnicode u => negb (Nat.eqb (length u) 0)
  | PyList l => negb (Nat.eqb (length l) 0)
  | PyDict d => negb (bool_decide (d = ∅))
  | PyObj _ => true
  end.

(** The truth value of an optional string argument ([None] or a string). *)
Definition truthy_arg (a : option string) : bool :=
  match a with
  | Some s => negb (String.eqb s "")
  | None => false
  end.

(** ** Exceptions *)

(** An exception raised inside a library or by the interpreter, by class name. *)
Record libexc : Type := LibExc { lib_class : string; lib_msg : string }.

(** The first four constructors are the [raise] statements of _client.py, by
    the class they raise; [Raised] is an exception that comes out of a library
    call (requests, json, ConfigParser) or of the interpreter. *)
Inductive pyexc : Type :=
| ValueError (msg : string)
| TypeError (msg : string)
| RuntimeError (msg : string)
| NonExistError (msg : string)
| Raised (e : libexc).

Inductive result (A : Type) : Type :=
| Ok (a : A)
| Raise (e : pyexc).
Arguments Ok {A} a.
Arguments Raise {A} e.

(** ** The state and exception monad *)

Definition M (S A : Type) : Type := S -> result A * S.

Definition ret {S A} (a : A) : M S A := fun s => (Ok a, s).

Definition raise {S A} (e : pyexc) : M S A := fun s => (Raise e, s).

Definition bind {S A B} (m : M S A) (k : A -> M S B) : M S B :=
  fun s =>
    match m s with
    | (Ok a, s') => k a s'
    | (Raise e, s') => (Raise e, s')
    end.

(** [try: m except Exception: h]; the effects of [m] on the state stay. *)
Definition try_except {S A} (m : M S A) (h : pyexc -> M S A) : M S A :=
  fun s =>
    match m s with
    | (Ok a, s') => (Ok a, s')
    | (Raise e, s') => h e s'
    end.

Definition gets {S A} (f : S -> A) : M S A := fun s => (Ok (f s), s).

Definition modify {S} (f : S -> S) : M S unit := fun s => (Ok tt, f s).

(** The outcome of a library call: its value, or the exception it raised. *)
Definition of_lib {A} (r : libexc + A) : result A :=
  match r with
  | inr a => Ok a
  | inl e => Raise (Raised e)
  end.

Definition lift {S A} (r : libexc + A) : M S A := fun s => (of_lib r, s).

Notation "x <- m ;; k" := (bind m (fun x => k))
  (at level 100, m at next level, right associativity).

(** ** HTTP requests and responses, configuration files *)

Record response : Type := Response { status_code : Z; text : string }.

Inductive http_method : Type := GET | POST.

Record HTTPBasicAuth : Type := BasicAuth { username : string; password : string }.

(** One call of [session.get] or [session.post] with its keyword arguments. *)
Record request : Type := Request {
  req_method : http_method;
  req_url : string;
  req_data : option string;
  req_headers : list (string * string);
  req_verify : bool;
  req_timeout : option pyval;
  req_auth : option HTTPBasicAuth
}.

(** What [ConfigParser.read] leaves in the parser: the DEFAULT options and the
    options of each named section. *)
Record config : Type := Config {
  cfg_defaults : gmap string string;
  cfg_sections : gmap string (gmap string string)
}.

(** The libraries and the world the client runs in.  [http_send] answers a
    request given the requests made before it, or raises (connection error,
    timeout); [config_read] parses the file at a path or raises a parsing
    error; [interpolate] is ConfigParser's expansion of a raw option value
    against the options in scope. *)
Class Env : Type := {
  json_loads : string -> libexc + pyval;
  json_dumps : pyval -> libexc + string;
  http_send : list request -> request -> libexc + response;
  abspath_expanduser : string -> string;
  isfile : string -> bool;
  config_read : string -> libexc + config;
  interpolate : gmap string string -> string -> libexc + string
}.

(** ** Library functions with a fixed behaviour *)

(** [urllib.quote(s)] with the default [safe='/'], on a byte string. *)
Definition always_safe (c : ascii) : bool :=
  let n := nat_of_ascii c in
  ((65 <=? n) && (n <=? 90) || (97 <=? n) && (n <=? 122)
   || (48 <=? n) && (n <=? 57)
   || Nat.eqb n 95 || Nat.eqb n 46 || Nat.eqb n 45)%nat.

Definition hex_digit (n : nat) : ascii :=
  if (n <? 10)%nat then ascii_of_nat (48 + n) else ascii_of_nat (55 + n).

Definition quote_char (c : ascii) : string :=
  if always_safe c || Ascii.eqb c "/"%char then String c EmptyString
  else
    let n := nat_of_ascii c in
    String "%"%char (String (hex_digit (n / 16)) (String (hex_digit (n mod 16)) EmptyString)).

Fixpoint quote (s : string) : string :=
  match s with
  | EmptyString => EmptyString
  | String c s' => quote_char c +:+ quote s'
  end.

(** [urllib.quote] on a [unicode]: the table of the library has the 256
    one-byte strings as keys, which a code point below 128 equals and no other
    code point does, so the first code point from 128 on raises [KeyError]. *)
Fixpoint quote_unicode (u : list N) : libexc + string :=
  match u with
  | [] => inr EmptyString
  | cp :: u' =>
      if (cp <? 128)%N then
        match quote_unicode u' with
        | inr q => inr (quote_char (ascii_of_N cp) +:+ q)
        | inl e => inl e
        end
      else inl (LibExc "KeyError" (NilZero.string_of_uint (N.to_uint cp)))
  end.

(** [urllib.quote(uri)] for a [uri] that passed [isinstance(uri, basestring)]. *)
Definition urllib_quote (uri : pyval) : libexc + string :=
  match uri with
  | PyStr s => inr (quote s)
  | PyUnicode u => quote_unicode u
  | _ => inl (LibExc "TypeError" "quote() of a value that is no string")
  end.

(** ['%s' % n] for an int [n]. *)
Definition str_of_int (n : Z) : string := NilZero.string_of_int (Z.to_int n).

(** [int(s)] for a decimal numeral [s]. *)
Definition int_of_str (s : string) : option Z :=
  option_map Z.of_int (NilZero.int_of_string s).

Definition lower_char (c : ascii) : ascii :=
  let n := nat_of_ascii c in
  if ((65 <=? n) && (n <=? 90))%nat then ascii_of_nat (n + 32) else c.

Fixpoint lower (s : string) : string :=
  match s with
  | EmptyString => EmptyString
  | String c s' => String (lower_char c) (lower s')
  end.

(** [j.get(key, default)]: a dict method; any other value has no [get]. *)
Definition py_get (j : pyval) (key : string) (default : pyval) : libexc + pyval :=
  match j with
  | PyDict d => inr (from_option id default (d !! key))
  | _ => inl (LibExc "AttributeError" "object has no attribute 'get'")
  end.

Definition SERVICE_INFO_SECTION_NAME : string := "Service Info".

Section Client.
Context `{Env}.

(** ** ConfigParser methods *)

(** [config.get(section, option)]. *)
Definition config_get (cfg : config) (section option : string) : libexc + string :=
  match cfg_sections cfg !! section with
  | None => inl (LibExc "NoSectionError" section)
  | Some sectiondict =>
      let d := sectiondict ∪ cfg_defaults cfg in
      match d !! option with
      | None => inl (LibExc "NoOptionError" option)
      | Some value => interpolate d value
      end
  end.

(** [config.has_option(section, option)] for a named section. *)
Definition config_has_option (cfg : config) (section option : string) : bool :=
  match cfg_sections cfg !! section with
  | None => false
  | Some sectiondict =>
      bool_decide (is_Some (sectiondict !! option))
      || bool_decide (is_Some (cfg_defaults cfg !! option))
  end.

Definition boolean_states : list (string * bool) :=
  [("1", true); ("yes", true); ("true", true); ("on", true);
   ("0", false); ("no", false); ("false", false); ("off", false)].

Fixpoint assoc (k : string) (l : list (string * bool)) : option bool :=
  match l with
  | [] => None
  | (k', b) :: l' => if String.eqb k k' then Some b else assoc k l'
  end.

(** [config.getboolean(section, option)]. *)
Definition config_getboolean (cfg : config) (section option : string) : libexc + bool :=
  match config_get cfg section option with
  | inl e => inl e
  | inr v =>
      match assoc (lower v) boolean_states with
      | Some b => inr b
      | None => inl (LibExc "ValueError" ("Not a boolean: " +:+ v))
      end
  end.

(** ** The client object *)

Record Client : Type := MkClient {
  endpoint : string;
  api_key : string;
  should_verify_certificate : bool;
  query_timeout : pyval;
  _schema_version : pyval
}.

(** The arguments of the constructor, each [None] or a value of its
    documented type. *)
Record init_args : Type := InitArgs {
  arg_endpoint : option string;
  arg_api_key : option string;
  arg_should_verify_certificate : option bool;
  arg_config_file : option string
}.

(** The state a method runs in: the object and the requests issued so far. *)
Record state : Type := State { self : Client; net : list request }.

(** A computation on the network alone, run inside a method. *)
Definition on_net {A} (m : M (list request) A) : M state A :=
  fun s =>
    let (r, tr) := m (net s) in
    (r, {| self := self s; net := tr |}).

(** [self.session.get(...)] and [self.session.post(...)]: the request is
    recorded, then the world answers or raises. *)
Definition session_send (rq : request) : M (list request) response :=
  fun tr =>
    match http_send tr rq with
    | inr r => (Ok r, (tr ++ [rq])%list)
    | inl e => (Raise (Raised e), (tr ++ [rq])%list)
    end.

Definition get_request (url : string) (verify : bool) : request :=
  {| req_method := GET; req_url := url; req_data := None;
     req_headers := []; req_verify := verify;
     req_timeout := None; req_auth := None |}.

Definition session_get (url : string) (verify : bool) : M (list request) response :=
  session_send (get_request url verify).

(** [response.json()]. *)
Definition response_json (r : response) : libexc + pyval := json_loads (text r).

(** ** Methods *)

(** [_read_config]: the three attributes it assigns, as a triple. *)
Definition _read_config (config_file : string) : M (list request) (string * string * bool) :=
  let config_file := abspath_expanduser config_file in
  if negb (isfile config_file) then
    raise (RuntimeError ("Path '" +:+ config_file +:+ "' is not a file."))
  else
    cfg <- lift (config_read config_file) ;;
    if negb (bool_decide (is_Some (cfg_sections cfg !! SERVICE_INFO_SECTION_NAME))) then
      raise (RuntimeError ("Cannot find " +:+ SERVICE_INFO_SECTION_NAME
                           +:+ " section in config file " +:+ config_file))
    else
      e <- lift (config_get cfg SERVICE_INFO_SECTION_NAME "endpoint") ;;
      k <- lift (config_get cfg SERVICE_INFO_SECTION_NAME "api key") ;;
      if config_has_option cfg SERVICE_INFO_SECTION_NAME "verify certificate" then
        v <- lift (config_getboolean cfg SERVICE_INFO_SECTION_NAME "verify certificate") ;;
        ret (e, k, v)
      else ret (e, k, false).

Definition _ping (endpoint : string) (verify : bool) : M (list request) string :=
  response <- session_get endpoint verify ;;
  if status_code response =? 200 then ret (text response)
  else raise (RuntimeError ("Error responding from service: response: " +:+ text response)).

(** Lines 74 to 82 of [__init__]: the connection parameters. *)
Definition resolve_config (a : init_args) : M (list request) (string * string * bool) :=
  if truthy_arg (arg_config_file a) then
    _read_config (default "" (arg_config_file a))
  else
    if negb (truthy_arg (arg_endpoint a)) || negb (truthy_arg (arg_api_key a)) then
      raise (ValueError "Either 'config_file' or ('endpoint' and 'api_key') pair need to be provided to initialize PredictiveServiceClient.")
    else
      ret (default "" (arg_endpoint a), default "" (arg_api_key a),
           default false (arg_should_verify_certificate a)).

(** Lines 85 to 89 of [__init__]: the ping and the schema version. *)
Definition discover_schema_version (endpoint : string) (verify : bool) : M (list request) pyval :=
  try_except
    (res <- _ping endpoint verify ;;
     j <- lift (json_loads res) ;;
     lift (py_get j "schema_version" (PyInt (-1))))
    (fun _ => ret (PyInt (-1))).

Definition __init__ (a : init_args) : M (list request) Client :=
  params <- resolve_config a ;;
  let '(e, k, v) := params in
  let query_timeout := PyInt 10 in
  sv <- discover_schema_version e v ;;
  ret {| endpoint := e; api_key := k; should_verify_certificate := v;
         query_timeout := query_timeout; _schema_version := sv |}.

(** [__str__] and [__repr__]: the string is built up in [s], line by line. *)
Definition __str__ (c : Client) : string :=
  let s := "" in
  let s := s +:+ ("Predictive Service Client:" +:+ String "010"%char EmptyString) in
  let s := s +:+ (String "009"%char "endpoint: " +:+ endpoint c
                  +:+ String "010"%char EmptyString) in
  s.

Definition __repr__ (c : Client) : string := __str__ c.

Definition set_query_timeout (timeout : pyval) : M state unit :=
  if py_le_int timeout 0 || negb (isinstance_int timeout) then
    raise (ValueError (String "034"%char "timeout" +:+ String "034"%char
                         " value has to be a positive integer in seconds."))
  else
    modify (fun s =>
      {| self := {| endpoint := endpoint (self s); api_key := api_key (self s);
                    should_verify_certificate := should_verify_certificate (self s);
                    query_timeout := timeout;
                    _schema_version := _schema_version (self s) |};
         net := net s |}).

(** The document [_post] serialises: [data], with the API key when the schema
    version is below 7. *)
Definition post_document (c : Client) (data : gmap string pyval) : gmap string pyval :=
  if py_lt_int (_schema_version c) 7
  then <["api_key" := PyStr (api_key c)]> data
  else data.

(** The timeout [_post] hands to [session.post]. *)
Definition post_timeout (timeout : pyval) : pyval :=
  if negb (truthy timeout) || negb (isinstance_int timeout) then PyInt 10 else timeout.

Definition post_request (c : Client) (path : string) (body : string) (timeout : pyval) : request :=
  {| req_method := POST;
     req_url := endpoint c +:+ "/" +:+ path;
     req_data := Some body;
     req_headers := [("content-type", "application/json")];
     req_verify := should_verify_certificate c;
     req_timeout := Some (post_timeout timeout);
     req_auth := Some (BasicAuth "api_key" (api_key c)) |}.

Definition _post (path : string) (data : option (gmap string pyval)) (timeout : pyval)
  : M state response :=
  c <- gets self ;;
  let data := default ∅ data in
  let data := post_document c data in
  body <- lift (json_dumps (PyDict data)) ;;
  on_net (session_send (post_request c path body timeout)).

Definition query (uri : pyval) (kwargs : gmap string pyval) : M state pyval :=
  if negb (isinstance_basestring uri) then
    raise (TypeError "'uri' has to be a string or unicode")
  else
    uri <- lift (urllib_quote uri) ;;
    let internal_data : gmap string pyval := {[ "data" := PyDict kwargs ]} in
    timeout <- gets (fun s => query_timeout (self s)) ;;
    response <- _post ("query/" +:+ uri) (Some internal_data) timeout ;;
    if status_code response =? 200 then lift (response_json response)
    else if status_code response =? 404 then
      raise (NonExistError ("Predictive Object '" +:+ uri +:+ "' cannot be found"))
    else
      raise (RuntimeError ("Query error status: " +:+ str_of_int (status_code response)
                           +:+ ", error: " +:+ text response)).

Definition feedback (key data : pyval) : M state response :=
  if negb (isinstance_basestring key) then
    raise (RuntimeError "Expect key to be a string or unicode")
  else if negb (type_is_dict data) then
    raise (RuntimeError "Feedback 'data' needs to be dictionary type")
  else
    let data : gmap string pyval := <["id" := key]> {[ "data" := data ]} in
    _post "feedback" (Some data) PyNone.

End Client.

(** ** Sequences of calls *)

(** A call a caller makes on a constructed client. *)
Inductive call : Type :=
| CallSetQueryTimeout (timeout : pyval)
| CallQuery (uri : pyval) (kwargs : gmap string pyval)
| CallFeedback (key data : pyval).

Definition is_set_query_timeout (c : call) : bool :=
  match c with
  | CallSetQueryTimeout _ => true
  | _ => false
  end.

(** The state after a call; an exception it raises goes to the caller, and the
    object stays as the call left it. *)
Definition run_call `{Env} (c : call) (s : state) : state :=
  match c with
  | CallSetQueryTimeout t => snd (set_query_timeout t s)
  | CallQuery uri kwargs => snd (query uri kwargs s)
  | CallFeedback key data => snd (feedback key data s)
  end.

Definition run_calls `{Env} (cs : list call) (s : state) : state :=
  fold_left (fun s c => run_call c s) cs s.

(** ** The error taxonomy of the specification *)

Inductive spec_error : Type :=
| ConfigurationError
| InvalidArgument
| NotFoundError
| RequestError.

Inductive operation : Type :=
| OpConstruct
| OpSetQueryTimeout
| OpQuery
| OpFeedback.

(** The specification names errors by what went wrong, the client by Python
    exception classes.  This is the correspondence, per operation: every
    exception that leaves the constructor is a configuration error; the
    [ValueError] of [set_query_timeout], the [TypeError] of [query] and the
    [RuntimeError]s of [feedback] reject an argument; [NonExistError] is the
    404 of [query] and its [RuntimeError] any other status.  An exception
    raised inside a library during a call (a connection error, a timeout, a
    body that is no JSON) is none of the four. *)
Definition spec_error_of (op : operation) (e : pyexc) : option spec_error :=
  match op, e with
  | OpConstruct, _ => Some ConfigurationError
  | OpSetQueryTimeout, ValueError _ => Some InvalidArgument
  | OpQuery, TypeError _ => Some InvalidArgument
  | OpQuery, NonExistError _ => Some NotFoundError
  | OpQuery, RuntimeError _ => Some RequestError
  | OpFeedback, RuntimeError _ => Some InvalidArgument
  | _, _ => None
  end.

Definition fails_with {A} (op : operation) (k : spec_error) (r : result A) : Prop :=
  match r with
  | Raise e => spec_error_of op e = Some k
  | Ok _ => False
  end.

(** A positive integer: an instance of [int], which [bool] subclasses with
    [True] as 1 and [False] as 0, whose value is above 0.  A [long] is of
    another type. *)
Definition int_value (v : pyval) : option Z :=
  match v with
  | PyInt n => Some n
  | PyBool b => Some (Z.b2z b)
  | _ => None
  end.

Definition positive_integer (v : pyval) : Prop :=
  exists n, int_value v = Some n /\ 0 < n.

(** An argument of the constructor is supplied when it is given and not empty. *)
Definition supplied (a : option string) : Prop := exists s, a = Some s /\ s <> "".

(** A string, [str] or [unicode]; and a value whose type is [dict] itself. *)
Definition is_string (v : pyval) : Prop :=
  (exists s, v = PyStr s) \/ (exists u, v = PyUnicode u).

Definition is_mapping (v : pyval) : Prop := exists d, v = PyDict d.

(** A positive integer in the words of the specification: a whole number
    above 0, which in Python 2 is an [int] or a [long]. *)
Definition positive_integer_of_spec (v : pyval) : Prop :=
  exists n, (v = PyInt n \/ v = PyLong n) /\ 0 < n.

(** A mapping in the words of the specification: a [dict], or an instance of
    one of the mapping classes of the standard library, which subclass it. *)
Definition mapping_class (cls : string) : bool :=
  String.eqb cls "OrderedDict" || String.eqb cls "defaultdict" || String.eqb cls "Counter".

Definition mapping_of_spec (v : pyval) : Prop :=
  match v with
  | PyDict _ => True
  | PyObj cls => mapping_class cls = true
  | _ => False
  end.

(** The reading of the wire format under which the API key lies inside the
    ["data"] object of the body and nowhere else. *)
Definition api_key_nested_in_data (doc : gmap string pyval) (key : string) : Prop :=
  doc !! "api_key" = None /\
  exists d, doc !! "data" = Some (PyDict d) /\ d !! "api_key" = Some (PyStr key).

(** ** A mock service *)

Module Mock.

Definition dq : string := String "034"%char EmptyString.

(** The JSON text of an object with one member. *)
Definition json_object1 (k v : string) : string := "{" +:+ dq +:+ k +:+ dq +:+ ": " +:+ v +:+ "}".

Definition schema5_text : string := json_object1 "schema_version" "5".
Definition schema9_text : string := json_object1 "schema_version" "9".
Definition ack_text : string := json_object1 "ack" "true".
Definition answer_text : string := json_object1 "response" "1".

Definition loads (s : string) : libexc + pyval :=
  if String.eqb s schema5_text then inr (PyDict {[ "schema_version" := PyInt 5 ]})
  else if String.eqb s schema9_text then inr (PyDict {[ "schema_version" := PyInt 9 ]})
  else if String.eqb s ack_text then inr (PyDict {[ "ack" := PyBool true ]})
  else if String.eqb s answer_text then inr (PyDict {[ "response" := PyInt 1 ]})
  else if String.eqb s "[]" then inr (PyList [])
  else inl (LibExc "ValueError" "No JSON object could be decoded").

(** A serialiser that writes the member names of an object only. *)
Definition dumps (v : pyval) : libexc + string :=
  match v with
  | PyDict d => inr ("{" +:+ String.concat "," (map fst (map_to_list d)) +:+ "}")
  | _ => inl (LibExc "TypeError" "is not JSON serializable")
  end.

(** The service at http://old reports schema version 5, the one at http://new
    version 9, and nothing listens at any other address. *)
Definition send (tr : list request) (rq : request) : libexc + response :=
  let url := req_url rq in
  match req_method rq with
  | GET =>
      if String.eqb url "http://old" then inr (Response 200 schema5_text)
      else if String.eqb url "http://new" then inr (Response 200 schema9_text)
      else if String.eqb url "http://list" then inr (Response 200 "[]")
      else if String.eqb url "http://busy" then inr (Response 503 "busy")
      else if String.eqb url "http://html" then inr (Response 200 "<html>")
      else inl (LibExc "ConnectionError" url)
  | POST =>
      if String.eqb url "http://old/feedback" then inr (Response 200 ack_text)
      else if String.eqb url "http://new/feedback" then inr (Response 500 "boom")
      else if String.eqb url "http://old/query/x" then inr (Response 500 "boom")
      else if String.eqb url "http://old/query/missing" then inr (Response 404 "")
      else if String.eqb url "http://old/query/recommender" then inr (Response 200 answer_text)
      else if String.eqb url "http://new/query/recommender" then inr (Response 200 answer_text)
      else inl (LibExc "ConnectionError" url)
  end.

Definition service_info : gmap string string :=
  {[ "endpoint" := "http://old"; "api key" := "secret" ]}.

Definition read (path : string) : libexc + config :=
  if String.eqb path "/etc/ps.conf" then
    inr (Config ∅ {[ SERVICE_INFO_SECTION_NAME := service_info ]})
  else if String.eqb path "/etc/other.conf" then
    inr (Config ∅ {[ "Other" := service_info ]})
  else inr (Config ∅ ∅).

Definition env : Env := {|
  json_loads := loads;
  json_dumps := dumps;
  http_send := send;
  abspath_expanduser := fun p => p;
  isfile := fun p => String.eqb p "/etc/ps.conf" || String.eqb p "/etc/other.conf";
  config_read := read;
  interpolate := fun _ v => inr v
|}.

Definition direct (url : string) : init_args :=
  {| arg_endpoint := Some url; arg_api_key := Some "secret";
     arg_should_verify_certificate := None; arg_config_file := None |}.

Definition from_file (path : string) : init_args :=
  {| arg_endpoint := None; arg_api_key := None;
     arg_should_verify_certificate := None; arg_config_file := Some path |}.

Definition client (url : string) (version : Z) : Client :=
  {| endpoint := url; api_key := "secret"; should_verify_certificate := false;
     query_timeout := PyInt 10; _schema_version := PyInt version |}.

End Mock.

(** ** What a request of the client looks like *)

(** A POST of client [c]: to the [feedback] path or to a path below [query/]
    under its endpoint, with a body, the JSON content type, the client's
    certificate setting, and basic authentication with the literal user name
    [api_key] and the client's key as password. *)
Definition client_post (c : Client) (rq : request) : Prop :=
  req_method rq = POST
  /\ req_auth rq = Some (BasicAuth "api_key" (api_key c))
  /\ req_verify rq = should_verify_certificate c
  /\ req_headers rq = [("content-type", "application/json")]
  /\ exists path body,
       (path = "feedback" \/ exists q, path = "query/" +:+ q)
       /\ req_url rq = endpoint c +:+ "/" +:+ path /\ req_data rq = Some body.

(** Request [rq] is a POST whose body is the serialisation of the JSON
    object [doc]. *)
Definition posts_document `{Env} (rq : request) (doc : gmap string pyval) : Prop :=
  req_method rq = POST
  /\ exists body, json_dumps (PyDict doc) = inr body /\ req_data rq = Some body.

(** ** More mock worlds *)

Module MockFile.

(** The mock service, with a file system in which every path is a file that
    parses to [cfg], and a json that reads every text as [j]. *)
Definition env (j : pyval) (cfg : config) : Env := {|
  json_loads := fun _ => inr j;
  json_dumps := Mock.dumps;
  http_send := Mock.send;
  abspath_expanduser := fun p => p;
  isfile := fun _ => true;
  config_read := fun _ => inr cfg;
  interpolate := fun _ v => inr v
|}.

(** A Service Info section with no [endpoint] option. *)
Definition no_endpoint : config :=
  Config ∅ {[ SERVICE_INFO_SECTION_NAME := {[ "api key" := "secret" ]} ]}.

(** A complete Service Info section, without [verify certificate]. *)
Definition complete : config :=
  Config ∅ {[ SERVICE_INFO_SECTION_NAME := Mock.service_info ]}.

(** A ping answer whose schema version is the string 5; json reads a JSON
    string as a [unicode]. *)
Definition string_version : pyval := PyDict {[ "schema_version" := PyUnicode [53%N] ]}.

End MockFile.

(** * Properties *)

(** ** How the methods run *)

Lemma of_lib_raises_library {A} (r : libexc + A) (e : pyexc) :
  of_lib r = Raise e -> exists l, e = Raised l.
Proof.
  destruct r as [l | a]; simpl; intros Heq.
  - exists l. congruence.
  - discriminate.
Qed.

(** [_post] serialises the document, and hands the request to the session
    when the serialisation succeeds. *)
Lemma _post_run `{Env} (path : string) (data : option (gmap string pyval))
    (timeout : pyval) (s : state) :
  _post path data timeout s =
    match json_dumps (PyDict (post_document (self s) (default ∅ data))) with
    | inl e => (Raise (Raised e), s)
    | inr body =>
        let rq := post_request (self s) path body timeout in
        (of_lib (http_send (net s) rq), {| self := self s; net := net s ++ [rq] |})
    end.
Proof.
  unfold _post, bind, gets, lift, on_net, session_send.
  destruct (json_dumps _) as [e | body]; simpl; [reflexivity |].
  destruct (http_send _ _) as [e | r]; reflexivity.
Qed.

(** [_post] raises nothing of its own: what comes out of it comes out of json
    or requests. *)
Lemma _post_raises_library `{Env} path data timeout s (e : pyexc) :
  fst (_post path data timeout s) = Raise e -> exists l, e = Raised l.
Proof.
  rewrite _post_run.
  destruct (json_dumps _) as [l | body]; simpl.
  - intros [= <-]. eauto.
  - apply of_lib_raises_library.
Qed.

(** [_post] leaves the object as it is. *)
Lemma _post_self `{Env} path data timeout s :
  self (snd (_post path data timeout s)) = self s.
Proof.
  rewrite _post_run. destruct (json_dumps _); reflexivity.
Qed.

(** A [str] is always quoted; a [unicode] is when all its code points are
    below 128. *)
Lemma urllib_quote_str (u : string) : urllib_quote (PyStr u) = inr (quote u).
Proof. reflexivity. Qed.

Lemma urllib_quote_basestring (uri : pyval) (q : string) :
  urllib_quote uri = inr q -> isinstance_basestring uri = true.
Proof. destruct uri; simpl; intros Hq; try discriminate Hq; reflexivity. Qed.

(** [query] on a string that is quoted to [q]: the status of the response
    decides the outcome. *)
Lemma query_run `{Env} (uri : pyval) (q : string) (kwargs : gmap string pyval) (s : state) :
  urllib_quote uri = inr q ->
  query uri kwargs s =
    match _post ("query/" +:+ q) (Some {[ "data" := PyDict kwargs ]})
                (query_timeout (self s)) s with
    | (Ok response, s') =>
        if status_code response =? 200 then (of_lib (response_json response), s')
        else if status_code response =? 404 then
          (Raise (NonExistError ("Predictive Object '" +:+ q +:+ "' cannot be found")), s')
        else
          (Raise (RuntimeError ("Query error status: " +:+ str_of_int (status_code response)
                                +:+ ", error: " +:+ text response)), s')
    | (Raise e, s') => (Raise e, s')
    end.
Proof.
  intros Hq. unfold query.
  rewrite (urllib_quote_basestring uri q Hq), Hq.
  unfold bind, gets, lift. simpl.
  destruct (_post _ _ _ s) as [[response | e] s']; [| reflexivity].
  destruct (status_code response =? 200); [reflexivity |].
  destruct (status_code response =? 404); reflexivity.
Qed.

(** [query] on a string that [urllib.quote] refuses: its exception comes out
    before anything is serialised or sent. *)
Lemma query_quote_raises `{Env} (uri : pyval) (x : libexc) (kwargs : gmap string pyval)
    (s : state) :
  isinstance_basestring uri = true -> urllib_quote uri = inl x ->
  query uri kwargs s = (Raise (Raised x), s).
Proof.
  intros Hstr Hq. unfold query. rewrite Hstr, Hq. reflexivity.
Qed.

Lemma query_not_basestring `{Env} (uri : pyval) (kwargs : gmap string pyval) (s : state) :
  isinstance_basestring uri = false ->
  query uri kwargs s = (Raise (TypeError "'uri' has to be a string or unicode"), s).
Proof.
  intros Hstr. unfold query. rewrite Hstr. reflexivity.
Qed.

Lemma query_self `{Env} uri kwargs s : self (snd (query uri kwargs s)) = self s.
Proof.
  destruct (isinstance_basestring uri) eqn:Hstr;
    [| rewrite query_not_basestring by exact Hstr; reflexivity].
  destruct (urllib_quote uri) as [x | q] eqn:Hq;
    [rewrite (query_quote_raises uri x) by assumption; reflexivity |].
  rewrite (query_run uri q) by exact Hq.
  pose proof (_post_self ("query/" +:+ q) (Some {[ "data" := PyDict kwargs ]})
                (query_timeout (self s)) s) as Hp.
  destruct (_post _ _ _ s) as [[response | e] s']; simpl in *; [| exact Hp].
  destruct (status_code response =? 200); [exact Hp |].
  destruct (status_code response =? 404); exact Hp.
Qed.

Lemma feedback_self `{Env} key data s : self (snd (feedback key data s)) = self s.
Proof.
  unfold feedback.
  destruct (negb (isinstance_basestring key)); [reflexivity |].
  destruct (negb (type_is_dict data)); [reflexivity |].
  apply _post_self.
Qed.

(** ** query *)

(** C7. A [query] whose [uri] is not a string (the integer 123, say) raises the
    [TypeError] of its first line, the InvalidArgument of the specification, and
    issues no HTTP request: the list of requests is left as it was. *)
Theorem query_rejects_non_string_uri `{Env} (uri : pyval) (kwargs : gmap string pyval)
    (s : state) :
  isinstance_basestring uri = false ->
  query uri kwargs s = (Raise (TypeError "'uri' has to be a string or unicode"), s)
  /\ fails_with OpQuery InvalidArgument (fst (query uri kwargs s))
  /\ net (snd (query uri kwargs s)) = net s.
Proof.
  intros Huri.
  rewrite (query_not_basestring uri kwargs s Huri). repeat split.
Qed.

Lemma query_rejects_non_string_uri_witness :
  query (H := Mock.env) (PyInt 123) {[ "method" := PyStr "predict" ]}
        (State (Mock.client "http://old" 5) [])
  = (Raise (TypeError "'uri' has to be a string or unicode"),
     State (Mock.client "http://old" 5) []).
Proof.
  apply (query_rejects_non_string_uri (H := Mock.env) (PyInt 123)).
  reflexivity.
Defined.

(** [str_of_int] writes the decimal numeral of its argument: [int] reads it
    back. *)
Lemma int_of_str_of_int (n : Z) : int_of_str (str_of_int n) = Some n.
Proof.
  unfold int_of_str, str_of_int.
  rewrite NilZero.isi.
  - simpl. f_equal. apply DecimalZ.of_to.
  - destruct n as [| p | p]; simpl; try discriminate.
    intros [= Hp]. exact (DecimalPos.Unsigned.to_uint_nonnil p Hp).
  - destruct n as [| p | p]; simpl; try discriminate.
    intros [= Hp]. exact (DecimalPos.Unsigned.to_uint_nonnil p Hp).
Qed.

(** C4. For a string [uri] (a [str], or a [unicode] that [urllib.quote] takes),
    once the POST of [query] has an answer: on status 200 the call returns the
    body parsed as JSON (what [response.json()] gives); on 404 it raises
    [NonExistError], the NotFoundError of the specification; on any other
    status it raises the [RuntimeError] that is its RequestError, whose message
    holds the status code, as the decimal numeral that reads back to it, and
    the response text. *)
Theorem query_status_mapping `{Env} (uri : pyval) (q : string) (kwargs : gmap string pyval)
    (s : state) (body : string) (r : response) :
  urllib_quote uri = inr q ->
  json_dumps (PyDict (post_document (self s) {[ "data" := PyDict kwargs ]})) = inr body ->
  http_send (net s)
    (post_request (self s) ("query/" +:+ q) body (query_timeout (self s))) = inr r ->
  (status_code r = 200 ->
     fst (query uri kwargs s) = of_lib (json_loads (text r))
     /\ forall j, json_loads (text r) = inr j -> fst (query uri kwargs s) = Ok j)
  /\ (status_code r = 404 ->
        fails_with OpQuery NotFoundError (fst (query uri kwargs s))
        /\ exists msg, fst (query uri kwargs s) = Raise (NonExistError msg))
  /\ (status_code r <> 200 -> status_code r <> 404 ->
        fails_with OpQuery RequestError (fst (query uri kwargs s))
        /\ (exists code,
              fst (query uri kwargs s)
              = Raise (RuntimeError ("Query error status: " +:+ code
                                     +:+ ", error: " +:+ text r))
              /\ int_of_str code = Some (status_code r))).
Proof.
  intros Hq Hdumps Hsend.
  rewrite (query_run uri q) by exact Hq. rewrite _post_run. simpl default.
  rewrite Hdumps. simpl. rewrite Hsend. simpl.
  split; [| split].
  - intros ->. simpl. split; [reflexivity |].
    intros j Hj. unfold response_json. rewrite Hj. reflexivity.
  - intros ->. simpl. split; [reflexivity | eauto].
  - intros H200 H404.
    destruct (Z.eqb_spec (status_code r) 200) as [? | _]; [contradiction |].
    destruct (Z.eqb_spec (status_code r) 404) as [? | _]; [contradiction |].
    simpl. split; [reflexivity |].
    exists (str_of_int (status_code r)). split; [reflexivity |].
    apply int_of_str_of_int.
Qed.

Lemma query_status_mapping_witness :
  exists code,
    fst (query (H := Mock.env) (PyStr "x") ∅ (State (Mock.client "http://old" 5) []))
    = Raise (RuntimeError ("Query error status: " +:+ code +:+ ", error: " +:+ "boom"))
    /\ int_of_str code = Some 500.
Proof.
  assert (Hdumps : json_dumps (Env := Mock.env)
                     (PyDict (post_document (Mock.client "http://old" 5)
                                {[ "data" := PyDict ∅ ]})) = inr "{api_key,data}")
    by (vm_compute; reflexivity).
  assert (Hsend : http_send (Env := Mock.env) []
                    (post_request (Mock.client "http://old" 5) ("query/" +:+ "x")
                       "{api_key,data}" (PyInt 10)) = inr (Response 500 "boom"))
    by (vm_compute; reflexivity).
  destruct (query_status_mapping (H := Mock.env) (PyStr "x") "x" ∅
              (State (Mock.client "http://old" 5) []) _ _ eq_refl Hdumps Hsend)
    as [_ [_ Hother]].
  destruct Hother as [_ Hmsg]; [discriminate | discriminate |].
  exact Hmsg.
Defined.

(** The message for status 500 and text [boom], letter by letter. *)
Example query_error_message :
  fst (query (H := Mock.env) (PyStr "x") ∅ (State (Mock.client "http://old" 5) []))
  = Raise (RuntimeError "Query error status: 500, error: boom").
Proof. vm_compute. reflexivity. Qed.

(** [urllib.quote] keeps letters, digits and the characters of [_.-/], and
    writes any other byte as a percent sign and two capital hexadecimal
    digits. *)
Example quote_reserved : quote "a b/c~d_e.f-g?" = "a%20b/c%7Ed_e.f-g%3F".
Proof. reflexivity. Qed.

Example quote_unicode_ascii :
  urllib_quote (PyUnicode [97; 32; 98]%N) = inr "a%20b".
Proof. reflexivity. Qed.

Example quote_unicode_e_acute :
  urllib_quote (PyUnicode [99; 97; 102; 233]%N) = inl (LibExc "KeyError" "233").
Proof. reflexivity. Qed.

(** The mock service answers 404 for the object [missing] and 200 with a JSON
    object for [recommender]. *)
Example query_missing_object :
  fst (query (H := Mock.env) (PyStr "missing") ∅ (State (Mock.client "http://old" 5) []))
  = Raise (NonExistError "Predictive Object 'missing' cannot be found").
Proof. vm_compute. reflexivity. Qed.

Example query_recommender :
  fst (query (H := Mock.env) (PyStr "recommender") {[ "method" := PyStr "predict" ]}
         (State (Mock.client "http://old" 5) []))
  = Ok (PyDict {[ "response" := PyInt 1 ]}).
Proof. vm_compute. reflexivity. Qed.

(** Where [query] posts: one request with the serialised document, or none
    when json cannot serialise it. *)
Lemma query_net `{Env} (uri : pyval) (q : string) (kwargs : gmap string pyval) (s : state) :
  urllib_quote uri = inr q ->
  net (snd (query uri kwargs s)) =
    (net s ++
     match json_dumps (PyDict (post_document (self s) {[ "data" := PyDict kwargs ]})) with
     | inr body =>
         [post_request (self s) ("query/" +:+ q) body (query_timeout (self s))]
     | inl _ => []
     end)%list.
Proof.
  intros Hq. rewrite (query_run uri q) by exact Hq. rewrite _post_run. simpl default.
  destruct (json_dumps _) as [e | body]; simpl.
  - symmetry. apply app_nil_r.
  - destruct (http_send _ _) as [e | r]; simpl; [reflexivity |].
    destruct (status_code r =? 200); [reflexivity |].
    destruct (status_code r =? 404); reflexivity.
Qed.

(** A [query] that does not get past its first two lines sends nothing. *)
Lemma query_net_unquoted `{Env} (uri : pyval) (kwargs : gmap string pyval) (s : state) :
  (forall q, urllib_quote uri <> inr q) ->
  snd (query uri kwargs s) = s.
Proof.
  intros Hq.
  destruct (isinstance_basestring uri) eqn:Hstr;
    [| rewrite query_not_basestring by exact Hstr; reflexivity].
  destruct (urllib_quote uri) as [x | q] eqn:Hquote;
    [| exfalso; exact (Hq q eq_refl)].
  rewrite (query_quote_raises uri x) by assumption. reflexivity.
Qed.

(** ** feedback *)

Lemma feedback_run `{Env} (key : string) (data : gmap string pyval) (s : state) :
  feedback (PyStr key) (PyDict data) s
  = _post "feedback" (Some (<["id" := PyStr key]> {[ "data" := PyDict data ]})) PyNone s.
Proof. reflexivity. Qed.

Lemma feedback_net `{Env} (key : string) (data : gmap string pyval) (s : state) :
  net (snd (feedback (PyStr key) (PyDict data) s)) =
    (net s ++
     match json_dumps (PyDict (post_document (self s)
                                 (<["id" := PyStr key]> {[ "data" := PyDict data ]}))) with
     | inr body => [post_request (self s) "feedback" body PyNone]
     | inl _ => []
     end)%list.
Proof.
  rewrite feedback_run, _post_run. simpl default.
  destruct (json_dumps _) as [e | body]; simpl; [| reflexivity].
  symmetry. apply app_nil_r.
Qed.

(** Whatever the status of the answer, [feedback] hands the response object
    back: it neither parses the body nor raises. *)
Lemma feedback_returns_response `{Env} (key : string) (data : gmap string pyval)
    (s : state) (body : string) (r : response) :
  json_dumps (PyDict (post_document (self s)
                        (<["id" := PyStr key]> {[ "data" := PyDict data ]}))) = inr body ->
  http_send (net s) (post_request (self s) "feedback" body PyNone) = inr r ->
  fst (feedback (PyStr key) (PyDict data) s) = Ok r.
Proof.
  intros Hdumps Hsend.
  rewrite feedback_run, _post_run. simpl default.
  rewrite Hdumps. simpl. rewrite Hsend. reflexivity.
Qed.

(** C1. Against the mock service that answers the feedback POST with status 200
    and an ack object, [feedback] returns the response object itself, not the
    mapping its body parses to; against the one that answers 500 it returns the
    response as well, where the claim has it raise. *)
Theorem feedback_returns_unparsed_response :
  fst (feedback (H := Mock.env) (PyStr "id1") (PyDict {[ "k" := PyStr "v" ]})
         (State (Mock.client "http://old" 5) []))
  = Ok (Response 200 Mock.ack_text)
  /\ response_json (H := Mock.env) (Response 200 Mock.ack_text)
     = inr (PyDict {[ "ack" := PyBool true ]})
  /\ fst (feedback (H := Mock.env) (PyStr "id1") (PyDict {[ "k" := PyStr "v" ]})
            (State (Mock.client "http://new" 9) []))
     = Ok (Response 500 "boom").
Proof.
  split; [| split]; vm_compute; reflexivity.
Qed.

(** The two checks of [feedback], and what follows them. *)
Lemma feedback_not_basestring `{Env} (key data : pyval) (s : state) :
  isinstance_basestring key = false ->
  feedback key data s = (Raise (RuntimeError "Expect key to be a string or unicode"), s).
Proof. intros Hkey. unfold feedback. rewrite Hkey. reflexivity. Qed.

Lemma feedback_not_dict `{Env} (key data : pyval) (s : state) :
  isinstance_basestring key = true -> type_is_dict data = false ->
  feedback key data s
  = (Raise (RuntimeError "Feedback 'data' needs to be dictionary type"), s).
Proof. intros Hkey Hdata. unfold feedback. rewrite Hkey, Hdata. reflexivity. Qed.

Lemma feedback_valid `{Env} (key data : pyval) (s : state) :
  isinstance_basestring key = true -> type_is_dict data = true ->
  feedback key data s
  = _post "feedback" (Some (<["id" := key]> {[ "data" := data ]})) PyNone s.
Proof. intros Hkey Hdata. unfold feedback. rewrite Hkey, Hdata. reflexivity. Qed.

Lemma feedback_valid_net `{Env} (key data : pyval) (s : state) :
  isinstance_basestring key = true -> type_is_dict data = true ->
  net (snd (feedback key data s)) =
    (net s ++
     match json_dumps (PyDict (post_document (self s)
                                 (<["id" := key]> {[ "data" := data ]}))) with
     | inr body => [post_request (self s) "feedback" body PyNone]
     | inl _ => []
     end)%list.
Proof.
  intros Hkey Hdata. rewrite feedback_valid by assumption.
  rewrite _post_run. simpl default.
  destruct (json_dumps _) as [e | body]; simpl; [| reflexivity].
  symmetry. apply app_nil_r.
Qed.

(** C8, as stated, fails: an [OrderedDict] is a mapping, and [feedback] with a
    string key refuses it, since its type is not [dict] itself. *)
Lemma feedback_refuses_ordered_dict :
  ~ (forall (key data : pyval) (s : state),
       is_string key -> mapping_of_spec data ->
       ~ fails_with OpFeedback InvalidArgument (fst (feedback (H := Mock.env) key data s))).
Proof.
  intros Hclaim.
  apply (Hclaim (PyStr "id1") (PyObj "OrderedDict") (State (Mock.client "http://old" 5) [])).
  - left. exists "id1". reflexivity.
  - reflexivity.
  - reflexivity.
Qed.

(** C8, amended. [feedback] raises the first [RuntimeError] of its validation
    when [key] is no [str] or [unicode], and the second when [key] is one and
    the type of [data] is not [dict] itself (an instance of a subclass is
    refused); in both cases it is the InvalidArgument of the specification and
    nothing is serialised or sent.  For a string [key] and a [dict] the checks
    pass: the call is the POST to [feedback], and what that raises is passed
    on. *)
Theorem feedback_argument_validation `{Env} (key data : pyval) (s : state) :
  (~ is_string key ->
   feedback key data s = (Raise (RuntimeError "Expect key to be a string or unicode"), s)
   /\ fails_with OpFeedback InvalidArgument (fst (feedback key data s)))
  /\ (is_string key -> ~ is_mapping data ->
      feedback key data s
      = (Raise (RuntimeError "Feedback 'data' needs to be dictionary type"), s)
      /\ fails_with OpFeedback InvalidArgument (fst (feedback key data s)))
  /\ (is_string key -> is_mapping data ->
      feedback key data s
      = _post "feedback" (Some (<["id" := key]> {[ "data" := data ]})) PyNone s)
  /\ (forall cls, data = PyObj cls ->
      fails_with OpFeedback InvalidArgument (fst (feedback key data s))).
Proof.
  assert (Hstr : is_string key <-> isinstance_basestring key = true).
  { unfold is_string. destruct key; simpl;
      try (split; [intros [[? ?] | [? ?]] |]; discriminate).
    - split; [reflexivity | intros _; left; eauto].
    - split; [reflexivity | intros _; right; eauto]. }
  assert (Hdict : is_mapping data <-> type_is_dict data = true).
  { unfold is_mapping. destruct data; simpl;
      try (split; [intros [? ?] |]; discriminate).
    split; [reflexivity | intros _; eauto]. }
  split; [| split; [| split]].
  - intros Hkey.
    assert (Hk : isinstance_basestring key = false).
    { destruct (isinstance_basestring key); [| reflexivity].
      exfalso. apply Hkey, Hstr. reflexivity. }
    rewrite (feedback_not_basestring key data s Hk). split; reflexivity.
  - intros Hkey Hdata. apply Hstr in Hkey.
    assert (Hd : type_is_dict data = false).
    { destruct (type_is_dict data); [| reflexivity].
      exfalso. apply Hdata, Hdict. reflexivity. }
    rewrite (feedback_not_dict key data s Hkey Hd). split; reflexivity.
  - intros Hkey Hdata. apply Hstr in Hkey. apply Hdict in Hdata.
    apply feedback_valid; assumption.
  - intros cls ->.
    destruct (isinstance_basestring key) eqn:Hk.
    + rewrite (feedback_not_dict key (PyObj cls) s Hk eq_refl). reflexivity.
    + rewrite (feedback_not_basestring key (PyObj cls) s Hk). reflexivity.
Qed.

Lemma feedback_argument_validation_witness :
  feedback (H := Mock.env) (PyStr "id1") (PyDict {[ "k" := PyStr "v" ]})
    (State (Mock.client "http://old" 5) [])
  = _post (H := Mock.env) "feedback"
      (Some (<["id" := PyStr "id1"]> {[ "data" := PyDict {[ "k" := PyStr "v" ]} ]}))
      PyNone (State (Mock.client "http://old" 5) []).
Proof.
  destruct (feedback_argument_validation (H := Mock.env) (PyStr "id1")
              (PyDict {[ "k" := PyStr "v" ]}) (State (Mock.client "http://old" 5) []))
    as (_ & _ & Hvalid & _).
  apply Hvalid.
  - left. exists "id1". reflexivity.
  - exists {[ "k" := PyStr "v" ]}. reflexivity.
Defined.

(** ** The API key in the body *)

Lemma post_document_below_7 (c : Client) (data : gmap string pyval) :
  py_lt_int (_schema_version c) 7 = true ->
  post_document c data = <["api_key" := PyStr (api_key c)]> data.
Proof. unfold post_document. intros ->. reflexivity. Qed.

Lemma post_document_from_7 (c : Client) (data : gmap string pyval) :
  py_lt_int (_schema_version c) 7 = false ->
  post_document c data = data.
Proof. unfold post_document. intros ->. reflexivity. Qed.

(** The document has an [api_key] member exactly when the schema version is
    below 7, provided the caller's own document has none at that level. *)
Lemma post_document_api_key (c : Client) (data : gmap string pyval) :
  data !! "api_key" = None ->
  is_Some (post_document c data !! "api_key") <-> py_lt_int (_schema_version c) 7 = true.
Proof.
  intros Hfresh.
  destruct (py_lt_int (_schema_version c) 7) eqn:Hlt.
  - rewrite post_document_below_7 by exact Hlt.
    rewrite lookup_insert_eq. split; [reflexivity | eauto].
  - rewrite post_document_from_7 by exact Hlt.
    rewrite Hfresh. split; [intros [? ?] |]; discriminate.
Qed.

Lemma query_document_fresh (kwargs : gmap string pyval) :
  ({[ "data" := PyDict kwargs ]} : gmap string pyval) !! "api_key" = None.
Proof. apply lookup_singleton_ne. discriminate. Qed.

Lemma feedback_document_fresh (key data : pyval) :
  (<["id" := key]> {[ "data" := data ]} : gmap string pyval) !! "api_key" = None.
Proof.
  rewrite lookup_insert_ne by discriminate.
  apply lookup_singleton_ne. discriminate.
Qed.

(** C2, as stated, fails: with schema version 5 the body that [query] posts
    has its [api_key] member beside ["data"], and the ["data"] object is the
    keyword arguments alone. *)
Lemma query_api_key_not_nested :
  let c := Mock.client "http://old" 5 in
  let kwargs : gmap string pyval := {[ "method" := PyStr "predict" ]} in
  let doc := post_document c {[ "data" := PyDict kwargs ]} in
  net (snd (query (H := Mock.env) (PyStr "recommender") kwargs (State c [])))
  = [post_request c "query/recommender" "{api_key,data}" (PyInt 10)]
  /\ json_dumps (Env := Mock.env) (PyDict doc) = inr "{api_key,data}"
  /\ ~ api_key_nested_in_data doc "secret".
Proof.
  split; [| split].
  - vm_compute. reflexivity.
  - vm_compute. reflexivity.
  - intros [Hnone _]. vm_compute in Hnone. discriminate Hnone.
Qed.

(** C2, amended. While the schema version is below 7, the body [query] posts
    to the quoted [uri] under [query/] is the serialisation of the object with
    exactly two members: ["data"], the keyword arguments as they were given,
    and ["api_key"], the client's key, at the top level. *)
Theorem query_body_api_key_top_level `{Env} (uri : pyval) (q : string)
    (kwargs : gmap string pyval) (s : state) :
  py_lt_int (_schema_version (self s)) 7 = true ->
  urllib_quote uri = inr q ->
  let doc := post_document (self s) {[ "data" := PyDict kwargs ]} in
  doc !! "api_key" = Some (PyStr (api_key (self s)))
  /\ doc !! "data" = Some (PyDict kwargs)
  /\ (forall k, is_Some (doc !! k) -> k = "data" \/ k = "api_key")
  /\ (forall body, json_dumps (PyDict doc) = inr body ->
      exists rq,
        net (snd (query uri kwargs s)) = (net s ++ [rq])%list
        /\ req_method rq = POST
        /\ req_url rq = endpoint (self s) +:+ "/" +:+ "query/" +:+ q
        /\ req_data rq = Some body).
Proof.
  intros Hlt Hq doc. subst doc.
  rewrite (post_document_below_7 _ _ Hlt).
  split; [| split; [| split]].
  - apply lookup_insert_eq.
  - rewrite lookup_insert_ne by discriminate. apply lookup_singleton_eq.
  - intros k [v Hk].
    destruct (decide (k = "api_key")) as [-> | Hne]; [right; reflexivity |].
    rewrite lookup_insert_ne in Hk by congruence.
    destruct (decide (k = "data")) as [-> | Hne']; [left; reflexivity |].
    rewrite lookup_singleton_ne in Hk by congruence. discriminate.
  - intros body Hdumps.
    rewrite (query_net uri q) by exact Hq.
    rewrite (post_document_below_7 _ _ Hlt), Hdumps.
    eexists. repeat split.
Qed.

Lemma query_body_api_key_top_level_witness :
  post_document (Mock.client "http://old" 5) {[ "data" := PyDict ∅ ]} !! "api_key"
  = Some (PyStr "secret").
Proof.
  apply (query_body_api_key_top_level (H := Mock.env) (PyStr "recommender") "recommender" ∅
           (State (Mock.client "http://old" 5) [])); reflexivity.
Defined.

(** C3. Every request a [query] or a [feedback] call adds to the log, whatever
    its arguments, is a POST whose body is the serialisation of a document that
    has an [api_key] member if and only if the cached schema version is below
    7, in Python's ordering; the call adds one such request when its arguments
    pass the checks and json serialises them.  For an integer version the
    condition is [n < 7], and the default -1 meets it. *)
Theorem api_key_in_body_iff_schema_version_below_7 `{Env} (s : state)
    (uri : pyval) (kwargs : gmap string pyval) (key data : pyval) :
  let c := self s in
  let keyed rq :=
    exists doc, posts_document rq doc
                /\ (is_Some (doc !! "api_key") <-> py_lt_int (_schema_version c) 7 = true) in
  (exists sent,
     net (snd (query uri kwargs s)) = (net s ++ sent)%list
     /\ Forall keyed sent
     /\ (forall q body, urllib_quote uri = inr q ->
         json_dumps (PyDict (post_document c {[ "data" := PyDict kwargs ]})) = inr body ->
         exists rq, sent = [rq] /\ req_data rq = Some body))
  /\ (exists sent,
       net (snd (feedback key data s)) = (net s ++ sent)%list
       /\ Forall keyed sent
       /\ (forall body, is_string key -> is_mapping data ->
           json_dumps (PyDict (post_document c (<["id" := key]> {[ "data" := data ]})))
           = inr body ->
           exists rq, sent = [rq] /\ req_data rq = Some body))
  /\ (forall n, _schema_version c = PyInt n ->
      (py_lt_int (_schema_version c) 7 = true <-> n < 7))
  /\ (_schema_version c = PyInt (-1) -> py_lt_int (_schema_version c) 7 = true).
Proof.
  intros c keyed. subst c.
  assert (Hnone : forall tr : list request,
            tr = (tr ++ [])%list /\ Forall keyed [] ).
  { intros tr. rewrite app_nil_r. split; [reflexivity | constructor]. }
  assert (Hkeyed : forall base path body t,
            (base : gmap string pyval) !! "api_key" = None ->
            json_dumps (PyDict (post_document (self s) base)) = inr body ->
            keyed (post_request (self s) path body t)).
  { intros base path body t Hfresh Hdumps. exists (post_document (self s) base).
    split; [| apply post_document_api_key, Hfresh].
    split; [reflexivity |]. exists body. split; [exact Hdumps | reflexivity]. }
  split; [| split; [| split]].
  - destruct (urllib_quote uri) as [x | q] eqn:Hq.
    + exists []. rewrite query_net_unquoted by (intros q; rewrite Hq; discriminate).
      destruct (Hnone (net s)) as [Hnet Hall].
      split; [exact Hnet |]. split; [exact Hall |]. intros q body [=].
    + rewrite (query_net uri q) by exact Hq.
      destruct (json_dumps _) as [x | body] eqn:Hdumps.
      * exists []. split; [reflexivity |]. split; [constructor |]. intros q' body' _ [=].
      * eexists. split; [reflexivity |]. split.
        -- constructor; [| constructor].
           eapply Hkeyed; [apply query_document_fresh | exact Hdumps].
        -- intros q' body' [= <-] [= <-]. eexists. split; reflexivity.
  - destruct (isinstance_basestring key) eqn:Hkey.
    + destruct (type_is_dict data) eqn:Hdata.
      * rewrite feedback_valid_net by assumption.
        destruct (json_dumps _) as [x | body] eqn:Hdumps.
        -- exists []. split; [reflexivity |]. split; [constructor |]. intros body' _ _ [=].
        -- eexists. split; [reflexivity |]. split.
           ++ constructor; [| constructor].
              eapply Hkeyed; [apply feedback_document_fresh | exact Hdumps].
           ++ intros body' _ _ [= <-]. eexists. split; reflexivity.
      * exists []. rewrite feedback_not_dict by assumption.
        destruct (Hnone (net s)) as [Hnet Hall].
        split; [exact Hnet |]. split; [exact Hall |].
        intros body _ [d ->]. discriminate Hdata.
    + exists []. rewrite feedback_not_basestring by assumption.
      destruct (Hnone (net s)) as [Hnet Hall].
      split; [exact Hnet |]. split; [exact Hall |].
      intros body [[k ->] | [k ->]]; discriminate Hkey.
  - intros n ->. simpl. apply Z.ltb_lt.
  - intros ->. reflexivity.
Qed.

Lemma api_key_in_body_iff_schema_version_below_7_witness :
  exists rq doc,
    net (snd (query (H := Mock.env) (PyStr "recommender") ∅
                (State (Mock.client "http://old" 5) []))) = [rq]
    /\ posts_document (H := Mock.env) rq doc
    /\ is_Some (doc !! "api_key").
Proof.
  destruct (api_key_in_body_iff_schema_version_below_7 (H := Mock.env)
              (State (Mock.client "http://old" 5) []) (PyStr "recommender") ∅
              (PyStr "id1") (PyDict ∅))
    as ((sent & Hnet & Hall & Hone) & _ & Hint & _).
  destruct (Hone "recommender" "{api_key,data}" eq_refl) as (rq & -> & _);
    [vm_compute; reflexivity |].
  apply Forall_inv in Hall. destruct Hall as (doc & Hposts & Hkey).
  exists rq, doc. split; [exact Hnet |]. split; [exact Hposts |].
  apply Hkey, (Hint 5 eq_refl). lia.
Defined.

(** The service that reports schema version 5 gets the key in the body of a
    later [query], the one that reports 9 does not. *)
Example ping_then_query_old :
  let run := __init__ (H := Mock.env) (Mock.direct "http://old") [] in
  exists c tr,
    run = (Ok c, tr)
    /\ _schema_version c = PyInt 5
    /\ map req_data (net (snd (query (H := Mock.env) (PyStr "recommender") ∅ (State c tr))))
       = [None; Some "{api_key,data}"].
Proof. eexists _, _. split; [vm_compute; reflexivity |]. split; vm_compute; reflexivity. Qed.

Example ping_then_query_new :
  let run := __init__ (H := Mock.env) (Mock.direct "http://new") [] in
  exists c tr,
    run = (Ok c, tr)
    /\ _schema_version c = PyInt 9
    /\ map req_data (net (snd (query (H := Mock.env) (PyStr "recommender") ∅ (State c tr))))
       = [None; Some "{data}"].
Proof. eexists _, _. split; [vm_compute; reflexivity |]. split; vm_compute; reflexivity. Qed.

(** ** Construction *)

Lemma truthy_arg_supplied (a : option string) : truthy_arg a = true <-> supplied a.
Proof.
  destruct a as [s |]; simpl.
  - destruct (String.eqb_spec s "") as [-> | Hne]; simpl.
    + split; [discriminate | intros (s & [= <-] & Hs); contradiction].
    + split; [intros _; exists s; auto | reflexivity].
  - split; [discriminate | intros (s & Hs & _); discriminate].
Qed.

(** Resolving the configuration issues no request. *)
Lemma resolve_config_net `{Env} (a : init_args) (tr : list request) :
  snd (resolve_config a tr) = tr.
Proof.
  unfold resolve_config.
  destruct (truthy_arg (arg_config_file a)).
  - unfold _read_config.
    destruct (negb (isfile _)); [reflexivity |].
    unfold bind, lift, ret, raise.
    destruct (config_read _) as [x | cfg]; simpl; [reflexivity |].
    destruct (negb (bool_decide _)); [reflexivity |].
    destruct (config_get cfg _ "endpoint"); simpl; [reflexivity |].
    destruct (config_get cfg _ "api key"); simpl; [reflexivity |].
    destruct (config_has_option _ _ _); [| reflexivity].
    destruct (config_getboolean _ _ _); reflexivity.
  - destruct (_ || _); reflexivity.
Qed.

(** The ping always yields a schema version: an exception anywhere in it is
    caught, and the one request it made stays on record. *)
Lemma discover_schema_version_run `{Env} (e : string) (v : bool) (tr : list request) :
  discover_schema_version e v tr =
    (Ok match http_send tr (get_request e v) with
        | inr r =>
            if status_code r =? 200 then
              match json_loads (text r) with
              | inr j =>
                  match py_get j "schema_version" (PyInt (-1)) with
                  | inr sv => sv
                  | inl _ => PyInt (-1)
                  end
              | inl _ => PyInt (-1)
              end
            else PyInt (-1)
        | inl _ => PyInt (-1)
        end,
     (tr ++ [get_request e v])%list).
Proof.
  unfold discover_schema_version, try_except, _ping, session_get, session_send, bind, lift.
  destruct (http_send _ _) as [x | r]; simpl; [reflexivity |].
  destruct (status_code r =? 200); simpl; [| reflexivity].
  destruct (json_loads _) as [x | j]; simpl; [reflexivity |].
  destruct (py_get _ _ _); reflexivity.
Qed.

Lemma init_run `{Env} (a : init_args) (tr : list request) :
  __init__ a tr =
    match resolve_config a tr with
    | (Ok (e, k, v), tr1) =>
        match discover_schema_version e v tr1 with
        | (Ok sv, tr2) => (Ok (MkClient e k v (PyInt 10) sv), tr2)
        | (Raise x, tr2) => (Raise x, tr2)
        end
    | (Raise x, tr1) => (Raise x, tr1)
    end.
Proof.
  unfold __init__, bind.
  destruct (resolve_config a tr) as [[[[e k] v] | x] tr1]; [| reflexivity].
  destruct (discover_schema_version e v tr1) as [[sv | x] tr2]; reflexivity.
Qed.

(** C5. Once the configuration is resolved, construction succeeds whatever
    the ping does, with timeout 10 and one GET on record.  The cached schema
    version is -1 when the GET raises, when its status is not 200, when its
    body is no JSON, and when the JSON is not an object; for a JSON object it
    is the [schema_version] member, or -1 when there is none. *)
Theorem init_swallows_ping_failure `{Env} (a : init_args) (tr : list request)
    (e k : string) (v : bool) :
  fst (resolve_config a tr) = Ok (e, k, v) ->
  exists sv,
    __init__ a tr = (Ok (MkClient e k v (PyInt 10) sv), (tr ++ [get_request e v])%list)
    /\ (forall x, http_send tr (get_request e v) = inl x -> sv = PyInt (-1))
    /\ (forall r, http_send tr (get_request e v) = inr r ->
        status_code r <> 200 -> sv = PyInt (-1))
    /\ (forall r x, http_send tr (get_request e v) = inr r ->
        status_code r = 200 -> json_loads (text r) = inl x -> sv = PyInt (-1))
    /\ (forall r j, http_send tr (get_request e v) = inr r ->
        status_code r = 200 -> json_loads (text r) = inr j -> ~ is_mapping j ->
        sv = PyInt (-1))
    /\ (forall r d, http_send tr (get_request e v) = inr r ->
        status_code r = 200 -> json_loads (text r) = inr (PyDict d) ->
        sv = default (PyInt (-1)) (d !! "schema_version")).
Proof.
  intros Hcfg.
  pose proof (resolve_config_net a tr) as Hnet.
  rewrite init_run.
  destruct (resolve_config a tr) as [res tr1]. simpl in Hcfg, Hnet. subst res tr1.
  rewrite discover_schema_version_run.
  eexists. split; [reflexivity |].
  split; [| split; [| split; [| split]]].
  - intros x ->. reflexivity.
  - intros r -> Hst.
    destruct (Z.eqb_spec (status_code r) 200); [contradiction | reflexivity].
  - intros r x -> -> ->. reflexivity.
  - intros r j -> -> -> Hj. simpl.
    destruct j; try reflexivity. exfalso. apply Hj. eexists. reflexivity.
  - intros r d -> -> ->. simpl. destruct (d !! "schema_version"); reflexivity.
Qed.

Lemma init_swallows_ping_failure_witness :
  __init__ (H := Mock.env) (Mock.direct "http://down") []
  = (Ok (MkClient "http://down" "secret" false (PyInt 10) (PyInt (-1))),
     [get_request "http://down" false]).
Proof.
  destruct (init_swallows_ping_failure (H := Mock.env) (Mock.direct "http://down") []
              "http://down" "secret" false eq_refl) as (sv & Hinit & Hraise & _).
  rewrite (Hraise (LibExc "ConnectionError" "http://down")) in Hinit
    by (vm_compute; reflexivity).
  exact Hinit.
Defined.

(** C9. Construction raises, and so yields no client and sends nothing: with
    the [ValueError] of the constructor when [config_file] is not supplied and
    [endpoint] and [api_key] are not both supplied; with the [RuntimeError]s of
    [_read_config] when the path is not a file, and when the file parses to a
    configuration with no Service Info section.  Each is a ConfigurationError. *)
Theorem init_configuration_errors `{Env} (a : init_args) (tr : list request) :
  (~ supplied (arg_config_file a) ->
   ~ (supplied (arg_endpoint a) /\ supplied (arg_api_key a)) ->
   fails_with OpConstruct ConfigurationError (fst (__init__ a tr))
   /\ exists msg, __init__ a tr = (Raise (ValueError msg), tr))
  /\ (forall p, arg_config_file a = Some p -> p <> "" ->
      isfile (abspath_expanduser p) = false ->
      fails_with OpConstruct ConfigurationError (fst (__init__ a tr))
      /\ __init__ a tr
         = (Raise (RuntimeError ("Path '" +:+ abspath_expanduser p +:+ "' is not a file.")),
            tr))
  /\ (forall p cfg, arg_config_file a = Some p -> p <> "" ->
      isfile (abspath_expanduser p) = true ->
      config_read (abspath_expanduser p) = inr cfg ->
      cfg_sections cfg !! SERVICE_INFO_SECTION_NAME = None ->
      fails_with OpConstruct ConfigurationError (fst (__init__ a tr))
      /\ __init__ a tr
         = (Raise (RuntimeError ("Cannot find " +:+ SERVICE_INFO_SECTION_NAME
                                 +:+ " section in config file " +:+ abspath_expanduser p)),
            tr)).
Proof.
  split; [| split].
  - intros Hfile Hpair.
    assert (Hf : truthy_arg (arg_config_file a) = false).
    { destruct (truthy_arg (arg_config_file a)) eqn:Ht; [| reflexivity].
      exfalso. apply Hfile, truthy_arg_supplied, Ht. }
    assert (Hp : negb (truthy_arg (arg_endpoint a)) || negb (truthy_arg (arg_api_key a))
                 = true).
    { destruct (truthy_arg (arg_endpoint a)) eqn:He; [| reflexivity].
      destruct (truthy_arg (arg_api_key a)) eqn:Hk; [| reflexivity].
      exfalso. apply Hpair. split; apply truthy_arg_supplied; assumption. }
    rewrite init_run. unfold resolve_config. rewrite Hf, Hp. simpl.
    split; [reflexivity | eauto].
  - intros p Hp Hne Hisfile.
    assert (Ht : truthy_arg (arg_config_file a) = true).
    { apply truthy_arg_supplied. exists p. auto. }
    rewrite init_run. unfold resolve_config, _read_config. rewrite Ht, Hp. simpl.
    rewrite Hisfile. simpl. split; reflexivity.
  - intros p cfg Hp Hne Hisfile Hread Hsection.
    assert (Ht : truthy_arg (arg_config_file a) = true).
    { apply truthy_arg_supplied. exists p. auto. }
    rewrite init_run. unfold resolve_config, _read_config. rewrite Ht, Hp. simpl.
    rewrite Hisfile. simpl. unfold bind, lift. rewrite Hread. simpl.
    rewrite Hsection. simpl. split; reflexivity.
Qed.

Lemma init_configuration_errors_witness :
  __init__ (H := Mock.env) (Mock.from_file "/etc/other.conf") []
  = (Raise (RuntimeError ("Cannot find " +:+ SERVICE_INFO_SECTION_NAME
                          +:+ " section in config file " +:+ "/etc/other.conf")), []).
Proof.
  destruct (init_configuration_errors (H := Mock.env) (Mock.from_file "/etc/other.conf") [])
    as (_ & _ & Hsection).
  apply (Hsection "/etc/other.conf" (Config ∅ {[ "Other" := Mock.service_info ]})).
  - reflexivity.
  - discriminate.
  - vm_compute. reflexivity.
  - vm_compute. reflexivity.
  - vm_compute. reflexivity.
Defined.

(** ** The query timeout *)

Lemma positive_integer_check (t : pyval) :
  py_le_int t 0 || negb (isinstance_int t) = false <-> positive_integer t.
Proof.
  unfold positive_integer.
  destruct t as [| b | n | n | f | x | u | l | d | cls]; simpl;
    try (split; [discriminate | intros (n' & Hn' & _); discriminate]).
  - destruct b; simpl.
    + split; [intros _; exists 1; split; [reflexivity | lia] | reflexivity].
    + split; [discriminate | intros (n' & [= <-] & Hpos); lia].
  - rewrite orb_false_r, Z.leb_gt.
    split; [intros Hpos; exists n; auto | intros (n' & [= <-] & Hpos); exact Hpos].
  - rewrite orb_true_r.
    split; [discriminate | intros (n' & Hn' & _); discriminate].
  - rewrite orb_true_r.
    split; [discriminate | intros (n' & Hn' & _); discriminate].
Qed.

Lemma set_query_timeout_run (t : pyval) (s : state) :
  set_query_timeout t s =
    if py_le_int t 0 || negb (isinstance_int t) then
      (Raise (ValueError (String "034"%char "timeout" +:+ String "034"%char
                            " value has to be a positive integer in seconds.")), s)
    else
      (Ok tt, {| self := MkClient (endpoint (self s)) (api_key (self s))
                           (should_verify_certificate (self s)) t
                           (_schema_version (self s));
                 net := net s |}).
Proof.
  unfold set_query_timeout. destruct (_ || _); reflexivity.
Qed.

(** A positive integer goes through [_post] as the timeout of the request. *)
Lemma post_timeout_positive (t : pyval) : positive_integer t -> post_timeout t = t.
Proof.
  intros (n & Hn & Hpos). unfold post_timeout.
  destruct t as [| b | m | m | f | x | u | l | d | cls]; simpl in Hn; try discriminate.
  - injection Hn as <-. destruct b; [reflexivity | simpl in Hpos; lia].
  - injection Hn as <-. simpl.
    destruct (Z.eqb_spec m 0); [lia | reflexivity].
Qed.

(** Calls other than [set_query_timeout] leave the object as it is. *)
Lemma run_calls_self `{Env} (cs : list call) (s : state) :
  forallb (fun c => negb (is_set_query_timeout c)) cs = true ->
  self (run_calls cs s) = self s.
Proof.
  revert s. induction cs as [| c cs IH]; intros s Hcs; [reflexivity |].
  simpl in Hcs. apply andb_prop in Hcs as [Hc Hcs].
  unfold run_calls in *. simpl. rewrite IH by exact Hcs.
  destruct c; simpl in *.
  - discriminate.
  - apply query_self.
  - apply feedback_self.
Qed.

(** C6, as stated, fails: the long 30 is a positive integer, and
    [set_query_timeout] refuses it, since a [long] is no instance of [int]. *)
Lemma set_query_timeout_refuses_long :
  ~ (forall (t : pyval) (s : state),
       fails_with OpSetQueryTimeout InvalidArgument (fst (set_query_timeout t s))
       <-> ~ positive_integer_of_spec t).
Proof.
  intros Hclaim.
  apply (proj1 (Hclaim (PyLong 30) (State (Mock.client "http://old" 5) []))).
  - reflexivity.
  - exists 30. split; [right; reflexivity | lia].
Qed.

(** C6, amended. [set_query_timeout] fails with its InvalidArgument, the
    [ValueError], exactly when the argument is not an instance of [int] (a
    [bool] is one, with value 0 or 1) with a value above 0: so 0 and -5 fail,
    every [long] and every float fails, and 30 succeeds.  After a call that
    succeeds, and any [query] and [feedback] calls since, the request a [query]
    posts carries that value as its timeout. *)
Theorem set_query_timeout_positive_integer `{Env} (timeout : pyval) (s : state) :
  (fails_with OpSetQueryTimeout InvalidArgument (fst (set_query_timeout timeout s))
   <-> ~ positive_integer timeout)
  /\ fails_with OpSetQueryTimeout InvalidArgument (fst (set_query_timeout (PyInt 0) s))
  /\ fails_with OpSetQueryTimeout InvalidArgument (fst (set_query_timeout (PyInt (-5)) s))
  /\ (forall n, fails_with OpSetQueryTimeout InvalidArgument
                  (fst (set_query_timeout (PyLong n) s)))
  /\ (forall f, fails_with OpSetQueryTimeout InvalidArgument
                  (fst (set_query_timeout (PyFloat f) s)))
  /\ fst (set_query_timeout (PyInt 30) s) = Ok tt
  /\ (positive_integer timeout ->
      fst (set_query_timeout timeout s) = Ok tt
      /\ query_timeout (self (snd (set_query_timeout timeout s))) = timeout
      /\ forall cs uri q kwargs body,
           forallb (fun c => negb (is_set_query_timeout c)) cs = true ->
           let s' := run_calls cs (snd (set_query_timeout timeout s)) in
           urllib_quote uri = inr q ->
           json_dumps (PyDict (post_document (self s') {[ "data" := PyDict kwargs ]}))
           = inr body ->
           exists rq,
             net (snd (query uri kwargs s')) = (net s' ++ [rq])%list
             /\ req_method rq = POST
             /\ req_data rq = Some body
             /\ req_timeout rq = Some timeout).
Proof.
  split; [| split; [| split; [| split; [| split; [| split]]]]]; try reflexivity.
  - rewrite set_query_timeout_run, <- positive_integer_check.
    destruct (_ || _); simpl; split; try tauto; congruence.
  - intros n. rewrite set_query_timeout_run. simpl. rewrite orb_true_r. reflexivity.
  - intros f. rewrite set_query_timeout_run. simpl. rewrite orb_true_r. reflexivity.
  - intros Hpos.
    pose proof (proj2 (positive_integer_check timeout) Hpos) as Hcheck.
    rewrite set_query_timeout_run, Hcheck.
    split; [reflexivity |]. split; [reflexivity |].
    intros cs uri q kwargs body Hcs s' Hq Hdumps.
    assert (Hself : query_timeout (self s') = timeout).
    { subst s'. rewrite run_calls_self by exact Hcs. reflexivity. }
    eexists. rewrite (query_net uri q) by exact Hq. rewrite Hdumps.
    split; [reflexivity |]. split; [reflexivity |]. split; [reflexivity |].
    simpl. rewrite Hself, post_timeout_positive by exact Hpos. reflexivity.
Qed.

Lemma set_query_timeout_positive_integer_witness :
  exists rq,
    net (snd (query (H := Mock.env) (PyStr "recommender") ∅
                (run_calls (H := Mock.env) []
                   (snd (set_query_timeout (PyInt 30)
                           (State (Mock.client "http://old" 5) []))))))
    = [rq]
    /\ req_method rq = POST
    /\ req_data rq = Some "{api_key,data}"
    /\ req_timeout rq = Some (PyInt 30).
Proof.
  destruct (set_query_timeout_positive_integer (H := Mock.env) (PyInt 30)
              (State (Mock.client "http://old" 5) [])) as (_ & _ & _ & _ & _ & _ & Hok).
  destruct Hok as (_ & _ & Hquery).
  - exists 30. split; [reflexivity | lia].
  - apply (Hquery [] (PyStr "recommender") "recommender" ∅ "{api_key,data}").
    + reflexivity.
    + reflexivity.
    + vm_compute. reflexivity.
Defined.

(** What the check of [set_query_timeout] makes of values that are not of
    type [int]: [True] is an [int] of value 1 and is stored as it is; a [long]
    and a float are of other types and are refused, whatever their value. *)
Example set_query_timeout_true :
  forall s, fst (set_query_timeout (PyBool true) s) = Ok tt.
Proof. reflexivity. Qed.

Example set_query_timeout_long :
  forall s, fails_with OpSetQueryTimeout InvalidArgument
              (fst (set_query_timeout (PyLong 30) s)).
Proof. reflexivity. Qed.

Example set_query_timeout_float :
  forall f s, fails_with OpSetQueryTimeout InvalidArgument
                (fst (set_query_timeout (PyFloat f) s)).
Proof.
  intros f s. rewrite set_query_timeout_run. simpl.
  rewrite orb_true_r. reflexivity.
Qed.

(** C10. A constructed client has query timeout 10; every call keeps the
    timeout a positive integer, so it is one after any sequence of calls on a
    constructed client; and a [set_query_timeout] that raises leaves the whole
    state, the timeout with it, as it was. *)
Theorem query_timeout_invariant `{Env} :
  (forall a tr c tr', __init__ a tr = (Ok c, tr') ->
     query_timeout c = PyInt 10 /\ positive_integer (query_timeout c))
  /\ (forall c s, positive_integer (query_timeout (self s)) ->
        positive_integer (query_timeout (self (run_call c s))))
  /\ (forall a tr c tr' cs, __init__ a tr = (Ok c, tr') ->
        positive_integer (query_timeout (self (run_calls cs (State c tr')))))
  /\ (forall t s e, fst (set_query_timeout t s) = Raise e ->
        snd (set_query_timeout t s) = s).
Proof.
  assert (Hinit : forall a tr c tr', __init__ a tr = (Ok c, tr') ->
            query_timeout c = PyInt 10 /\ positive_integer (query_timeout c)).
  { intros a tr c tr'. rewrite init_run.
    destruct (resolve_config a tr) as [[[[e k] v] | x] tr1]; [| discriminate].
    rewrite discover_schema_version_run. intros [= <- _].
    split; [reflexivity |]. exists 10. split; [reflexivity | lia]. }
  assert (Hstep : forall c s, positive_integer (query_timeout (self s)) ->
            positive_integer (query_timeout (self (run_call c s)))).
  { intros c s Hinv. destruct c as [t | uri kwargs | key data]; simpl.
    - rewrite set_query_timeout_run.
      destruct (py_le_int t 0 || negb (isinstance_int t)) eqn:Hcheck; simpl.
      + exact Hinv.
      + apply positive_integer_check, Hcheck.
    - rewrite query_self. exact Hinv.
    - rewrite feedback_self. exact Hinv. }
  split; [exact Hinit |]. split; [exact Hstep |]. split.
  - intros a tr c tr' cs Hc.
    assert (Hinv : positive_integer (query_timeout (self (State c tr')))).
    { apply (Hinit a tr c tr' Hc). }
    clear Hc. generalize dependent (State c tr').
    induction cs as [| c' cs IH]; intros s Hinv; [exact Hinv |].
    unfold run_calls in *. simpl. apply IH, Hstep, Hinv.
  - intros t s e. rewrite set_query_timeout_run.
    destruct (_ || _); [reflexivity | discriminate].
Qed.

Lemma query_timeout_invariant_witness :
  snd (set_query_timeout (PyInt 0) (State (Mock.client "http://old" 5) []))
  = State (Mock.client "http://old" 5) [].
Proof.
  destruct (query_timeout_invariant (H := Mock.env)) as (_ & _ & _ & Hfail).
  apply (Hfail (PyInt 0) _
           (ValueError (String "034"%char "timeout" +:+ String "034"%char
                          " value has to be a positive integer in seconds."))).
  reflexivity.
Defined.

(** * Further properties *)

(** ** Construction and the network *)

(** X1. Construction is all or nothing on the network.  Either it raises the
    exception of the configuration step and the request log is as before, or
    it yields a client with timeout 10 after exactly one request: a GET to the
    client's endpoint with its certificate setting, and no body, no
    authentication and no timeout. *)
Theorem init_all_or_nothing `{Env} (a : init_args) (tr : list request) :
  (exists e, __init__ a tr = (Raise e, tr) /\ fst (resolve_config a tr) = Raise e)
  \/ (exists c rq,
        __init__ a tr = (Ok c, (tr ++ [rq])%list)
        /\ query_timeout c = PyInt 10
        /\ req_method rq = GET
        /\ req_url rq = endpoint c
        /\ req_verify rq = should_verify_certificate c
        /\ req_data rq = None /\ req_auth rq = None /\ req_timeout rq = None).
Proof.
  pose proof (resolve_config_net a tr) as Hnet.
  rewrite init_run.
  destruct (resolve_config a tr) as [[[[e k] v] | x] tr1]; simpl in Hnet; subst tr1.
  - right. rewrite discover_schema_version_run.
    eexists _, _. split; [reflexivity |]. repeat split.
  - left. exists x. split; reflexivity.
Qed.

(** X2. A supplied [config_file] takes precedence: the [endpoint], [api_key]
    and [should_verify_certificate] arguments given beside it are ignored. *)
Theorem config_file_takes_precedence `{Env} (a : init_args) (tr : list request) :
  supplied (arg_config_file a) ->
  __init__ a tr
  = __init__ {| arg_endpoint := None; arg_api_key := None;
                arg_should_verify_certificate := None;
                arg_config_file := arg_config_file a |} tr.
Proof.
  intros Hfile. apply truthy_arg_supplied in Hfile.
  unfold __init__, bind, resolve_config. simpl. rewrite Hfile. reflexivity.
Qed.

Lemma config_file_takes_precedence_witness :
  __init__ (H := Mock.env)
    {| arg_endpoint := Some "http://new"; arg_api_key := Some "other";
       arg_should_verify_certificate := Some true;
       arg_config_file := Some "/etc/ps.conf" |} []
  = __init__ (H := Mock.env) (Mock.from_file "/etc/ps.conf") [].
Proof.
  apply (config_file_takes_precedence (H := Mock.env)
           {| arg_endpoint := Some "http://new"; arg_api_key := Some "other";
              arg_should_verify_certificate := Some true;
              arg_config_file := Some "/etc/ps.conf" |} []).
  exists "/etc/ps.conf". split; [reflexivity | discriminate].
Defined.

(** X3. Direct construction keeps what it is given: with no [config_file]
    supplied and both [endpoint] and [api_key] supplied, the client holds that
    endpoint and key, and the certificate setting is the argument, or [False]
    when the argument is [None]. *)
Theorem init_direct `{Env} (a : init_args) (tr : list request) (e k : string) :
  ~ supplied (arg_config_file a) ->
  arg_endpoint a = Some e -> e <> "" ->
  arg_api_key a = Some k -> k <> "" ->
  exists sv,
    __init__ a tr
    = (Ok (MkClient e k (default false (arg_should_verify_certificate a)) (PyInt 10) sv),
       (tr ++ [get_request e (default false (arg_should_verify_certificate a))])%list).
Proof.
  intros Hfile He Hne Hk Hnk.
  assert (Hf : truthy_arg (arg_config_file a) = false).
  { destruct (truthy_arg (arg_config_file a)) eqn:Ht; [| reflexivity].
    exfalso. apply Hfile, truthy_arg_supplied, Ht. }
  assert (Hte : truthy_arg (arg_endpoint a) = true).
  { apply truthy_arg_supplied. exists e. auto. }
  assert (Htk : truthy_arg (arg_api_key a) = true).
  { apply truthy_arg_supplied. exists k. auto. }
  rewrite init_run. unfold resolve_config. rewrite Hf, Hte, Htk, He, Hk. simpl.
  rewrite discover_schema_version_run. eexists. reflexivity.
Qed.

Lemma init_direct_witness :
  exists sv,
    __init__ (H := Mock.env) (Mock.direct "http://old") []
    = (Ok (MkClient "http://old" "secret" false (PyInt 10) sv),
       [get_request "http://old" false]).
Proof.
  apply (init_direct (H := Mock.env) (Mock.direct "http://old") [] "http://old" "secret").
  - intros (p & Hp & _). discriminate Hp.
  - reflexivity.
  - discriminate.
  - reflexivity.
  - discriminate.
Defined.

(** X4. Reading a configuration file that has a Service Info section with
    both options, and no [verify certificate] option in the section or in the
    defaults, gives the endpoint and key of the file and the certificate
    setting [False], and sends nothing. *)
Theorem read_config_verify_defaults_to_false `{Env} (p : string) (cfg : config)
    (sec : gmap string string) (e k : string) (tr : list request) :
  isfile (abspath_expanduser p) = true ->
  config_read (abspath_expanduser p) = inr cfg ->
  cfg_sections cfg !! SERVICE_INFO_SECTION_NAME = Some sec ->
  config_get cfg SERVICE_INFO_SECTION_NAME "endpoint" = inr e ->
  config_get cfg SERVICE_INFO_SECTION_NAME "api key" = inr k ->
  sec !! "verify certificate" = None ->
  cfg_defaults cfg !! "verify certificate" = None ->
  _read_config p tr = (Ok (e, k, false), tr).
Proof.
  intros Hisfile Hread Hsec He Hk Hvs Hvd.
  unfold _read_config. rewrite Hisfile. simpl.
  unfold bind, lift. rewrite Hread. simpl. rewrite Hsec. simpl.
  rewrite He. simpl. rewrite Hk. simpl.
  unfold config_has_option. rewrite Hsec, Hvs, Hvd. simpl. reflexivity.
Qed.

Lemma read_config_verify_defaults_to_false_witness :
  _read_config (H := MockFile.env PyNone MockFile.complete) "/etc/ps.conf" []
  = (Ok ("http://old", "secret", false), []).
Proof.
  apply (read_config_verify_defaults_to_false (H := MockFile.env PyNone MockFile.complete)
           "/etc/ps.conf" MockFile.complete Mock.service_info "http://old" "secret" []);
    vm_compute; reflexivity.
Defined.

(** X5. When [config.get] raises for the [endpoint] option (the option is
    missing, say) or, after it, for the [api key] option, that exception leaves
    the constructor as it is, no client is built and nothing is sent. *)
Theorem init_config_get_raises `{Env} (a : init_args) (p : string) (cfg : config)
    (sec : gmap string string) (x : libexc) (tr : list request) :
  arg_config_file a = Some p -> p <> "" ->
  isfile (abspath_expanduser p) = true ->
  config_read (abspath_expanduser p) = inr cfg ->
  cfg_sections cfg !! SERVICE_INFO_SECTION_NAME = Some sec ->
  config_get cfg SERVICE_INFO_SECTION_NAME "endpoint" = inl x
  \/ (exists e, config_get cfg SERVICE_INFO_SECTION_NAME "endpoint" = inr e)
     /\ config_get cfg SERVICE_INFO_SECTION_NAME "api key" = inl x ->
  __init__ a tr = (Raise (Raised x), tr).
Proof.
  intros Hp Hne Hisfile Hread Hsec Hget.
  assert (Ht : truthy_arg (arg_config_file a) = true).
  { apply truthy_arg_supplied. exists p. auto. }
  rewrite init_run. unfold resolve_config, _read_config. rewrite Ht, Hp. simpl.
  rewrite Hisfile. simpl. unfold bind, lift. rewrite Hread. simpl.
  rewrite Hsec. simpl.
  destruct Hget as [He | [[e He] Hk]].
  - rewrite He. reflexivity.
  - rewrite He. simpl. rewrite Hk. reflexivity.
Qed.

Lemma init_config_get_raises_witness :
  __init__ (H := MockFile.env PyNone MockFile.no_endpoint) (Mock.from_file "/etc/ps.conf") []
  = (Raise (Raised (LibExc "NoOptionError" "endpoint")), []).
Proof.
  apply (init_config_get_raises (H := MockFile.env PyNone MockFile.no_endpoint)
           (Mock.from_file "/etc/ps.conf") "/etc/ps.conf" MockFile.no_endpoint
           {[ "api key" := "secret" ]}).
  - reflexivity.
  - discriminate.
  - reflexivity.
  - reflexivity.
  - vm_compute. reflexivity.
  - left. vm_compute. reflexivity.
Defined.

(** ** What calls keep and what they send *)

Lemma set_query_timeout_config (t : pyval) (s : state) :
  let c' := self (snd (set_query_timeout t s)) in
  endpoint c' = endpoint (self s) /\ api_key c' = api_key (self s)
  /\ should_verify_certificate c' = should_verify_certificate (self s)
  /\ _schema_version c' = _schema_version (self s).
Proof.
  rewrite set_query_timeout_run. destruct (_ || _); simpl; auto.
Qed.

Lemma run_call_config `{Env} (c : call) (s : state) :
  let c' := self (run_call c s) in
  endpoint c' = endpoint (self s) /\ api_key c' = api_key (self s)
  /\ should_verify_certificate c' = should_verify_certificate (self s)
  /\ _schema_version c' = _schema_version (self s).
Proof.
  destruct c as [t | uri kwargs | key data]; simpl.
  - apply set_query_timeout_config.
  - rewrite query_self. auto.
  - rewrite feedback_self. auto.
Qed.

(** X6. The connection parameters are fixed at construction: after any
    sequence of [set_query_timeout], [query] and [feedback] calls, whether they
    return or raise, the endpoint, the API key, the certificate setting and the
    cached schema version are what they were.  The service is never pinged
    again, so a schema version learnt at construction stays. *)
Theorem calls_keep_connection_parameters `{Env} (cs : list call) (s : state) :
  let c' := self (run_calls cs s) in
  endpoint c' = endpoint (self s) /\ api_key c' = api_key (self s)
  /\ should_verify_certificate c' = should_verify_certificate (self s)
  /\ _schema_version c' = _schema_version (self s).
Proof.
  revert s. induction cs as [| c cs IH]; intros s; [simpl; auto |].
  unfold run_calls in *. simpl.
  destruct (IH (run_call c s)) as (He & Hk & Hv & Hsv).
  destruct (run_call_config c s) as (He' & Hk' & Hv' & Hsv').
  simpl in *. repeat split; congruence.
Qed.

Lemma post_request_client_post (c : Client) (path body : string) (t : pyval) :
  path = "feedback" \/ (exists q, path = "query/" +:+ q) ->
  client_post c (post_request c path body t).
Proof. intros Hpath. unfold client_post. simpl. repeat split. eauto. Qed.

Lemma client_post_config (c c' : Client) (rq : request) :
  endpoint c' = endpoint c -> api_key c' = api_key c ->
  should_verify_certificate c' = should_verify_certificate c ->
  client_post c' rq -> client_post c rq.
Proof. unfold client_post. intros -> -> ->. tauto. Qed.

(** [set_query_timeout] sends nothing; a [query] or a [feedback] sends at most
    one request, a POST of the client. *)
Lemma run_call_net `{Env} (c : call) (s : state) :
  exists sent,
    net (run_call c s) = (net s ++ sent)%list
    /\ (length sent <= if is_set_query_timeout c then 0 else 1)%nat
    /\ Forall (client_post (self s)) sent.
Proof.
  assert (Hnone : forall (tr : list request) (n : nat),
            tr = (tr ++ [])%list /\ (length (@nil request) <= n)%nat
            /\ Forall (client_post (self s)) []).
  { intros tr n. rewrite app_nil_r. repeat split; [simpl; lia | constructor]. }
  destruct c as [t | uri kwargs | key data]; simpl.
  - exists []. rewrite set_query_timeout_run.
    destruct (_ || _); simpl; apply Hnone.
  - destruct (urllib_quote uri) as [x | q] eqn:Hq.
    + exists []. rewrite query_net_unquoted by (intros q; rewrite Hq; discriminate).
      apply Hnone.
    + rewrite (query_net uri q) by exact Hq. destruct (json_dumps _) as [x | body].
      * exists []. split; [reflexivity |]. split; [simpl; lia | constructor].
      * eexists. split; [reflexivity |]. split; [simpl; lia |].
        constructor; [apply post_request_client_post; eauto | constructor].
  - destruct (isinstance_basestring key) eqn:Hkey.
    + destruct (type_is_dict data) eqn:Hdata.
      * rewrite feedback_valid_net by assumption. destruct (json_dumps _) as [x | body].
        -- exists []. split; [reflexivity |]. split; [simpl; lia | constructor].
        -- eexists. split; [reflexivity |]. split; [simpl; lia |].
           constructor; [apply post_request_client_post; auto | constructor].
      * exists []. rewrite feedback_not_dict by assumption. apply Hnone.
    + exists []. rewrite feedback_not_basestring by assumption. apply Hnone.
Qed.

(** X7. Calls only add to the request log: [set_query_timeout] adds nothing,
    and a [query] or a [feedback] adds at most one request (no retry, whatever
    the answer), so the requests added are no more than the [query] and
    [feedback] calls made.  Each request added is a POST to [feedback] or below
    [query/] under the endpoint, with a JSON body and headers, the client's
    certificate setting and basic authentication by the user name [api_key]
    and the client's key. *)
Theorem calls_send_client_posts `{Env} (cs : list call) (s : state) :
  exists sent,
    net (run_calls cs s) = (net s ++ sent)%list
    /\ (length sent
        <= length (List.filter (fun c => negb (is_set_query_timeout c)) cs))%nat
    /\ Forall (client_post (self s)) sent
    /\ (forall t, net (run_call (CallSetQueryTimeout t) s) = net s).
Proof.
  assert (Hset : forall s' t, net (run_call (CallSetQueryTimeout t) s') = net s').
  { intros s' t. simpl. rewrite set_query_timeout_run. destruct (_ || _); reflexivity. }
  revert s. induction cs as [| c cs IH]; intros s.
  - exists []. simpl. rewrite app_nil_r. repeat split; [lia | constructor | apply Hset].
  - destruct (run_call_net c s) as (sent1 & Hnet1 & Hlen1 & Hall1).
    destruct (IH (run_call c s)) as (sent2 & Hnet2 & Hlen2 & Hall2 & _).
    destruct (run_call_config c s) as (He & Hk & Hv & _). simpl in He, Hk, Hv.
    exists (sent1 ++ sent2)%list.
    unfold run_calls in *. simpl fold_left. rewrite Hnet2, Hnet1, <- app_assoc.
    split; [reflexivity |]. split; [| split; [| apply Hset]].
    + rewrite length_app. simpl List.filter.
      destruct (is_set_query_timeout c); simpl in *; lia.
    + apply Forall_app. split; [exact Hall1 |].
      eapply Forall_impl; [exact Hall2 |].
      intros rq. apply client_post_config; assumption.
Qed.

(** ** Timeouts *)

(** X8. [feedback] posts with timeout 10 whatever the query timeout of the
    client is: [set_query_timeout] does not reach it. *)
Theorem feedback_timeout_is_10 `{Env} (key : string) (data : gmap string pyval)
    (s : state) (body : string) :
  json_dumps (PyDict (post_document (self s)
                        (<["id" := PyStr key]> {[ "data" := PyDict data ]}))) = inr body ->
  exists rq,
    net (snd (feedback (PyStr key) (PyDict data) s)) = (net s ++ [rq])%list
    /\ req_url rq = endpoint (self s) +:+ "/" +:+ "feedback"
    /\ req_timeout rq = Some (PyInt 10).
Proof.
  intros Hdumps. rewrite feedback_net, Hdumps.
  eexists. split; [reflexivity |]. split; reflexivity.
Qed.

Lemma feedback_timeout_is_10_witness :
  exists rq,
    net (snd (feedback (H := Mock.env) (PyStr "id1") (PyDict ∅)
                (snd (set_query_timeout (PyInt 30)
                        (State (Mock.client "http://old" 5) [])))))
    = [rq]
    /\ req_url rq = "http://old" +:+ "/" +:+ "feedback"
    /\ req_timeout rq = Some (PyInt 10).
Proof.
  apply (feedback_timeout_is_10 (H := Mock.env) "id1" ∅
           (snd (set_query_timeout (PyInt 30) (State (Mock.client "http://old" 5) [])))
           "{id,api_key,data}").
  vm_compute. reflexivity.
Defined.

(** X9. The timeout of the request [query] posts is the [query_timeout]
    attribute when that is an [int] other than 0, and 10 otherwise; so it is an
    [int] other than 0 even when the attribute was assigned behind the setter.
    A negative attribute is sent as it is. *)
Theorem query_timeout_fallback `{Env} (uri : pyval) (q : string)
    (kwargs : gmap string pyval) (s : state) (body : string) :
  urllib_quote uri = inr q ->
  json_dumps (PyDict (post_document (self s) {[ "data" := PyDict kwargs ]})) = inr body ->
  exists rq t,
    net (snd (query uri kwargs s)) = (net s ++ [rq])%list
    /\ req_method rq = POST
    /\ req_data rq = Some body
    /\ req_timeout rq = Some t
    /\ (exists n, int_value t = Some n /\ n <> 0)
    /\ ((exists n, int_value (query_timeout (self s)) = Some n /\ n <> 0) ->
        t = query_timeout (self s))
    /\ (~ (exists n, int_value (query_timeout (self s)) = Some n /\ n <> 0) ->
        t = PyInt 10).
Proof.
  intros Hq Hdumps. rewrite (query_net uri q) by exact Hq. rewrite Hdumps.
  eexists _, _. split; [reflexivity |]. split; [reflexivity |].
  split; [reflexivity |]. split; [reflexivity |].
  unfold post_timeout.
  destruct (query_timeout (self s)) as [| b | n | n | f | x | u | l | d | cls]; simpl;
    rewrite ?orb_true_r;
    try (split; [exists 10; split; [reflexivity | lia] |];
         split; [intros (n' & Hn' & _); discriminate | reflexivity]).
  - destruct b; simpl.
    + split; [exists 1; split; [reflexivity | lia] |].
      split; [reflexivity |]. intros Hn. exfalso. apply Hn. exists 1. split; [reflexivity | lia].
    + split; [exists 10; split; [reflexivity | lia] |].
      split; [intros (n' & [= <-] & Hn'); lia | reflexivity].
  - destruct (Z.eqb_spec n 0) as [-> | Hne]; simpl.
    + split; [exists 10; split; [reflexivity | lia] |].
      split; [intros (n' & [= <-] & Hn'); lia | reflexivity].
    + split; [exists n; auto |].
      split; [reflexivity |]. intros Hn. exfalso. apply Hn. exists n. auto.
Qed.

Lemma query_timeout_fallback_witness :
  exists rq t,
    net (snd (query (H := Mock.env) (PyStr "recommender") ∅
                (State (MkClient "http://old" "secret" false (PyStr "soon") (PyInt 5)) [])))
    = [rq]
    /\ req_timeout rq = Some t
    /\ t = PyInt 10.
Proof.
  destruct (query_timeout_fallback (H := Mock.env) (PyStr "recommender") "recommender" ∅
              (State (MkClient "http://old" "secret" false (PyStr "soon") (PyInt 5)) [])
              "{api_key,data}") as (rq & t & Hnet & _ & _ & Ht & _ & _ & Hdefault).
  - reflexivity.
  - vm_compute. reflexivity.
  - exists rq, t. split; [exact Hnet |]. split; [exact Ht |].
    apply Hdefault. intros (n & Hn & _). discriminate Hn.
Defined.

(** ** Failures inside the libraries *)

(** X10. [query] passes on, unchanged, what the libraries raise once its
    [uri] is a string.  When [urllib.quote] refuses the [uri], or when json
    cannot serialise the document, nothing is sent and the state is as before;
    when the POST raises (no connection, a timeout) the one request stays on
    record and is not retried; when the body of a 200 answer is no JSON the
    parser's exception comes out. *)
Theorem query_propagates_library_errors `{Env} (uri : pyval)
    (kwargs : gmap string pyval) (s : state) (x : libexc) :
  let doc := PyDict (post_document (self s) {[ "data" := PyDict kwargs ]}) in
  let rq q body := post_request (self s) ("query/" +:+ q) body (query_timeout (self s)) in
  (is_string uri -> urllib_quote uri = inl x -> query uri kwargs s = (Raise (Raised x), s))
  /\ (forall q, urllib_quote uri = inr q -> json_dumps doc = inl x ->
      query uri kwargs s = (Raise (Raised x), s))
  /\ (forall q body, urllib_quote uri = inr q -> json_dumps doc = inr body ->
      http_send (net s) (rq q body) = inl x ->
      query uri kwargs s
      = (Raise (Raised x), {| self := self s; net := net s ++ [rq q body] |})
      /\ req_method (rq q body) = POST /\ req_data (rq q body) = Some body)
  /\ (forall q body r, urllib_quote uri = inr q -> json_dumps doc = inr body ->
      http_send (net s) (rq q body) = inr r ->
      status_code r = 200 -> json_loads (text r) = inl x ->
      query uri kwargs s
      = (Raise (Raised x), {| self := self s; net := net s ++ [rq q body] |})).
Proof.
  intros doc rq. subst doc rq.
  split; [| split; [| split]].
  - intros [[u ->] | [u ->]] Hq; apply query_quote_raises; auto.
  - intros q Hq Hdumps. rewrite (query_run uri q) by exact Hq.
    rewrite _post_run. simpl default. rewrite Hdumps. reflexivity.
  - intros q body Hq Hdumps Hsend. rewrite (query_run uri q) by exact Hq.
    rewrite _post_run. simpl default. rewrite Hdumps. simpl. rewrite Hsend.
    repeat split.
  - intros q body r Hq Hdumps Hsend Hst Hloads. rewrite (query_run uri q) by exact Hq.
    rewrite _post_run. simpl default.
    rewrite Hdumps. simpl. rewrite Hsend. simpl. rewrite Hst. simpl.
    unfold response_json. rewrite Hloads. reflexivity.
Qed.

Lemma query_propagates_library_errors_witness :
  query (H := Mock.env) (PyStr "x") ∅ (State (Mock.client "http://down" 5) [])
  = (Raise (Raised (LibExc "ConnectionError" "http://down/query/x")),
     State (Mock.client "http://down" 5)
       [post_request (Mock.client "http://down" 5) ("query/" +:+ "x")
          "{api_key,data}" (PyInt 10)]).
Proof.
  destruct (query_propagates_library_errors (H := Mock.env) (PyStr "x") ∅
              (State (Mock.client "http://down" 5) [])
              (LibExc "ConnectionError" "http://down/query/x")) as (_ & _ & Hsend & _).
  apply (Hsend "x" "{api_key,data}"); [reflexivity | vm_compute; reflexivity ..].
Defined.

(** X11. [feedback] passes on what json and requests raise in the same way:
    nothing is sent when the document cannot be serialised, and an exception
    of the POST comes out with the one request on record. *)
Theorem feedback_propagates_library_errors `{Env} (key : string)
    (data : gmap string pyval) (s : state) (x : libexc) :
  let doc := PyDict (post_document (self s)
                       (<["id" := PyStr key]> {[ "data" := PyDict data ]})) in
  let rq body := post_request (self s) "feedback" body PyNone in
  (json_dumps doc = inl x -> feedback (PyStr key) (PyDict data) s = (Raise (Raised x), s))
  /\ (forall body, json_dumps doc = inr body -> http_send (net s) (rq body) = inl x ->
      feedback (PyStr key) (PyDict data) s
      = (Raise (Raised x), {| self := self s; net := net s ++ [rq body] |})).
Proof.
  intros doc rq. subst doc rq.
  split.
  - intros Hdumps. rewrite feedback_run, _post_run. simpl default.
    rewrite Hdumps. reflexivity.
  - intros body Hdumps Hsend. rewrite feedback_run, _post_run. simpl default.
    rewrite Hdumps. simpl. rewrite Hsend. reflexivity.
Qed.

Lemma feedback_propagates_library_errors_witness :
  feedback (H := Mock.env) (PyStr "id1") (PyDict ∅) (State (Mock.client "http://down" 5) [])
  = (Raise (Raised (LibExc "ConnectionError" "http://down/feedback")),
     State (Mock.client "http://down" 5)
       [post_request (Mock.client "http://down" 5) "feedback" "{id,api_key,data}" PyNone]).
Proof.
  destruct (feedback_propagates_library_errors (H := Mock.env) "id1" ∅
              (State (Mock.client "http://down" 5) [])
              (LibExc "ConnectionError" "http://down/feedback")) as (_ & Hsend).
  apply (Hsend "{id,api_key,data}"); vm_compute; reflexivity.
Defined.

(** ** The body of feedback *)

(** X12. The document [feedback] serialises has the member [id], the key,
    and the member [data], the caller's dict as it was given; its only other
    member can be [api_key], which is the client's key when the schema version
    is below 7 and is absent otherwise.  What the caller's dict holds cannot
    replace any of the three. *)
Theorem feedback_body_members `{Env} (key : string) (data : gmap string pyval) (s : state) :
  let doc := post_document (self s) (<["id" := PyStr key]> {[ "data" := PyDict data ]}) in
  doc !! "id" = Some (PyStr key)
  /\ doc !! "data" = Some (PyDict data)
  /\ (forall k, is_Some (doc !! k) -> k = "data" \/ k = "id" \/ k = "api_key")
  /\ doc !! "api_key"
     = (if py_lt_int (_schema_version (self s)) 7 then Some (PyStr (api_key (self s)))
        else None)
  /\ net (snd (feedback (PyStr key) (PyDict data) s))
     = (net s ++ match json_dumps (PyDict doc) with
                 | inr body => [post_request (self s) "feedback" body PyNone]
                 | inl _ => []
                 end)%list.
Proof.
  intros doc. subst doc.
  assert (Hbase : forall k v,
            (<["id" := PyStr key]> {[ "data" := PyDict data ]} : gmap string pyval) !! k
            = Some v -> k = "data" \/ k = "id").
  { intros k v Hk.
    destruct (decide (k = "id")) as [-> | Hne]; [right; reflexivity |].
    rewrite lookup_insert_ne in Hk by congruence.
    destruct (decide (k = "data")) as [-> | Hne']; [left; reflexivity |].
    rewrite lookup_singleton_ne in Hk by congruence. discriminate. }
  split; [| split; [| split; [| split]]]; [| | | | apply feedback_net].
  - unfold post_document. destruct (py_lt_int _ 7).
    + rewrite lookup_insert_ne by discriminate. apply lookup_insert_eq.
    + apply lookup_insert_eq.
  - unfold post_document. destruct (py_lt_int _ 7).
    + rewrite !lookup_insert_ne by discriminate. apply lookup_singleton_eq.
    + rewrite lookup_insert_ne by discriminate. apply lookup_singleton_eq.
  - intros k [v Hk]. unfold post_document in Hk. destruct (py_lt_int _ 7).
    + destruct (decide (k = "api_key")) as [-> | Hne]; [auto |].
      rewrite lookup_insert_ne in Hk by congruence.
      destruct (Hbase k v Hk); auto.
    + destruct (Hbase k v Hk); auto.
  - unfold post_document. destruct (py_lt_int _ 7).
    + apply lookup_insert_eq.
    + apply feedback_document_fresh.
Qed.

(** ** The printed form *)

Lemma append_newline_inj (s1 s2 : string) (c : ascii) :
  s1 +:+ String c EmptyString = s2 +:+ String c EmptyString -> s1 = s2.
Proof.
  revert s2. induction s1 as [| a s1 IH]; intros [| b s2]; simpl; intros Heq.
  - reflexivity.
  - injection Heq as _ Heq. destruct s2; discriminate Heq.
  - injection Heq as _ Heq. destruct s1; discriminate Heq.
  - injection Heq as -> Heq. f_equal. apply IH, Heq.
Qed.

(** X13. [repr] is [str]; the text names the endpoint between a fixed header
    and a newline and nothing else of the client, the API key least of all: two
    clients print alike exactly when their endpoints are equal. *)
Theorem str_names_the_endpoint_only (c c' : Client) :
  __repr__ c = __str__ c
  /\ __str__ c
     = "Predictive Service Client:" +:+ String "010"%char EmptyString
       +:+ String "009"%char "endpoint: " +:+ endpoint c +:+ String "010"%char EmptyString
  /\ (__str__ c = __str__ c' <-> endpoint c = endpoint c').
Proof.
  split; [reflexivity |]. split; [reflexivity |].
  split.
  - unfold __str__. simpl. intros Heq.
    injection Heq as Heq. apply append_newline_inj in Heq. exact Heq.
  - unfold __str__. intros ->. reflexivity.
Qed.

(** ** From the ping to the body *)

(** X14. When the ping of the constructor fails, by an exception or by a
    status other than 200, the client is built with schema version -1, and
    every [query] it then posts has as its body the serialisation of the
    caller's arguments with the API key beside them. *)
Theorem failed_ping_puts_key_in_body `{Env} (a : init_args) (tr : list request)
    (e k : string) (v : bool) :
  fst (resolve_config a tr) = Ok (e, k, v) ->
  (forall r, http_send tr (get_request e v) = inr r -> status_code r <> 200) ->
  exists c tr',
    __init__ a tr = (Ok c, tr')
    /\ _schema_version c = PyInt (-1)
    /\ forall uri q kwargs body,
         urllib_quote uri = inr q ->
         json_dumps (PyDict (<["api_key" := PyStr k]> {[ "data" := PyDict kwargs ]}))
         = inr body ->
         exists rq,
           net (snd (query uri kwargs (State c tr'))) = (tr' ++ [rq])%list
           /\ req_method rq = POST
           /\ req_url rq = e +:+ "/" +:+ "query/" +:+ q
           /\ req_data rq = Some body.
Proof.
  intros Hcfg Hping.
  pose proof (resolve_config_net a tr) as Hnet.
  rewrite init_run.
  destruct (resolve_config a tr) as [res tr1]. simpl in Hcfg, Hnet. subst res tr1.
  rewrite discover_schema_version_run.
  assert (Hsv : match http_send tr (get_request e v) with
                | inr r =>
                    if status_code r =? 200 then
                      match json_loads (text r) with
                      | inr j =>
                          match py_get j "schema_version" (PyInt (-1)) with
                          | inr sv => sv
                          | inl _ => PyInt (-1)
                          end
                      | inl _ => PyInt (-1)
                      end
                    else PyInt (-1)
                | inl _ => PyInt (-1)
                end = PyInt (-1)).
  { destruct (http_send tr (get_request e v)) as [x | r]; [reflexivity |].
    destruct (Z.eqb_spec (status_code r) 200) as [H200 | _]; [| reflexivity].
    exfalso. exact (Hping r eq_refl H200). }
  rewrite Hsv.
  eexists _, _. split; [reflexivity |]. split; [reflexivity |].
  intros uri q kwargs body Hq Hdumps.
  rewrite (query_net uri q) by exact Hq.
  unfold post_document. simpl. rewrite Hdumps.
  eexists. repeat split.
Qed.

Lemma failed_ping_puts_key_in_body_witness :
  exists c tr' rq,
    __init__ (H := Mock.env) (Mock.direct "http://busy") [] = (Ok c, tr')
    /\ _schema_version c = PyInt (-1)
    /\ net (snd (query (H := Mock.env) (PyStr "x") ∅ (State c tr'))) = (tr' ++ [rq])%list
    /\ req_data rq = Some "{api_key,data}".
Proof.
  destruct (failed_ping_puts_key_in_body (H := Mock.env) (Mock.direct "http://busy") []
              "http://busy" "secret" false eq_refl) as (c & tr' & Hinit & Hsv & Hquery).
  - intros r Hr. vm_compute in Hr. injection Hr as <-. discriminate.
  - destruct (Hquery (PyStr "x") "x" ∅ "{api_key,data}" eq_refl)
      as (rq & Hnet & _ & _ & Hdata); [vm_compute; reflexivity |].
    exists c, tr', rq. auto.
Defined.

(** X15. The schema version is cached as the service reports it, of whatever
    JSON type, and compared as Python 2 compares: a version reported as a
    string, the string 5 too, is not below 7, so such a service gets no
    [api_key] member; a version reported as null is below 7, and the key is
    sent. *)
Theorem non_integer_schema_version `{Env} (a : init_args) (tr : list request)
    (e k : string) (v : bool) (r : response) (d : gmap string pyval) (sv : pyval) :
  fst (resolve_config a tr) = Ok (e, k, v) ->
  http_send tr (get_request e v) = inr r ->
  status_code r = 200 ->
  json_loads (text r) = inr (PyDict d) ->
  d !! "schema_version" = Some sv ->
  exists c tr',
    __init__ a tr = (Ok c, tr')
    /\ _schema_version c = sv
    /\ (is_string sv -> forall kwargs,
          post_document c {[ "data" := PyDict kwargs ]} = {[ "data" := PyDict kwargs ]})
    /\ (sv = PyNone -> forall kwargs,
          post_document c {[ "data" := PyDict kwargs ]}
          = <["api_key" := PyStr k]> {[ "data" := PyDict kwargs ]}).
Proof.
  intros Hcfg Hsend Hst Hloads Hd.
  pose proof (resolve_config_net a tr) as Hnet.
  rewrite init_run.
  destruct (resolve_config a tr) as [res tr1]. simpl in Hcfg, Hnet. subst res tr1.
  rewrite discover_schema_version_run, Hsend, Hst, Hloads. simpl. rewrite Hd. simpl.
  eexists _, _. split; [reflexivity |]. split; [reflexivity |].
  split.
  - intros [[ver ->] | [ver ->]] kwargs; reflexivity.
  - intros -> kwargs. reflexivity.
Qed.

Lemma non_integer_schema_version_witness :
  exists c tr',
    __init__ (H := MockFile.env MockFile.string_version MockFile.complete)
      (Mock.direct "http://old") [] = (Ok c, tr')
    /\ _schema_version c = PyUnicode [53%N]
    /\ post_document c {[ "data" := PyDict ∅ ]} = {[ "data" := PyDict ∅ ]}.
Proof.
  destruct (non_integer_schema_version
              (H := MockFile.env MockFile.string_version MockFile.complete)
              (Mock.direct "http://old") [] "http://old" "secret" false
              (Response 200 Mock.schema5_text) {[ "schema_version" := PyUnicode [53%N] ]}
              (PyUnicode [53%N]) eq_refl)
    as (c & tr' & Hinit & Hsv & Hstr & _); try (vm_compute; reflexivity).
  exists c, tr'. split; [exact Hinit |]. split; [exact Hsv |].
  apply Hstr. right. exists [53%N]. reflexivity.
Defined.

(** ** Quoting the uri *)

Lemma quote_unicode_raises (u : list N) :
  (exists x, quote_unicode u = inl x) <-> Exists (fun cp => (128 <= cp)%N) u.
Proof.
  induction u as [| cp u IH]; simpl.
  - split; [intros [x Hx]; discriminate | intros Hex; inversion Hex].
  - destruct (N.ltb_spec cp 128) as [Hlt | Hge].
    + destruct (quote_unicode u) as [x | q].
      * split; [intros _; apply Exists_cons_tl, IH; eauto | eauto].
      * split; [intros [x Hx]; discriminate |].
        intros Hex. apply Exists_cons in Hex as [Hcp | Htl]; [lia |].
        apply IH in Htl as [x Hx]. discriminate.
    + split; [intros _; apply Exists_cons_hd; exact Hge | eauto].
Qed.

(** X16. A [query] whose [uri] is a [unicode] with a code point from 128 on
    does not reach the service: [urllib.quote] raises [KeyError], which comes
    out of [query] with nothing serialised or sent.  A [str], of whatever
    bytes, is always quoted, and so is a [unicode] of code points below 128. *)
Theorem query_unicode_uri `{Env} (u : list N) (kwargs : gmap string pyval) (s : state) :
  (Exists (fun cp => (128 <= cp)%N) u ->
   exists msg, query (PyUnicode u) kwargs s = (Raise (Raised (LibExc "KeyError" msg)), s))
  /\ (Forall (fun cp => (cp < 128)%N) u ->
      exists q, urllib_quote (PyUnicode u) = inr q)
  /\ (forall b, urllib_quote (PyStr b) = inr (quote b)).
Proof.
  split; [| split]; [| | reflexivity].
  - intros Hex. apply quote_unicode_raises in Hex as [x Hx].
    assert (Hkey : exists msg, x = LibExc "KeyError" msg).
    { clear -Hx. induction u as [| cp u IH]; simpl in Hx; [discriminate |].
      destruct (cp <? 128)%N.
      - destruct (quote_unicode u) as [y | q]; [| discriminate].
        injection Hx as <-. apply IH. reflexivity.
      - injection Hx as <-. eauto. }
    destruct Hkey as [msg ->]. exists msg.
    apply query_quote_raises; [reflexivity | exact Hx].
  - intros Hall. simpl.
    destruct (quote_unicode u) as [x | q] eqn:Hq; [| eauto].
    exfalso.
    assert (Hex : Exists (fun cp => (128 <= cp)%N) u)
      by (apply quote_unicode_raises; eauto).
    apply Exists_exists in Hex as (cp & Hin & Hge).
    rewrite Forall_forall in Hall. specialize (Hall cp Hin). lia.
Qed.

Lemma query_unicode_uri_witness :
  exists msg,
    query (H := Mock.env) (PyUnicode [99; 97; 102; 233]%N) ∅
      (State (Mock.client "http://old" 5) [])
    = (Raise (Raised (LibExc "KeyError" msg)), State (Mock.client "http://old" 5) []).
Proof.
  apply (query_unicode_uri (H := Mock.env) [99; 97; 102; 233]%N ∅
           (State (Mock.client "http://old" 5) [])).
  apply Exists_cons_tl, Exists_cons_tl, Exists_cons_tl, Exists_cons_hd. lia.
Defined.
